(** * Synthia AI service: the LLM provider abstraction layer

    A shallow embedding of [app/services/llm_manager.py] (class
    [LLMManager]) together with the three model defaults it reads from
    [app/core/config.py], and the properties of routing, fallback,
    message translation, token accounting and retry that hold of it.

    Conventions.  Python [str] is [string], [int] is [Z], [float] is an
    IEEE 754 value ([spec_float]).  A client attribute that is [None] is
    [None]; an initialised client is [Some] of the handle, and the handle
    is the awaitable [create] method the code calls on it.  Coroutines are
    computations in the monad [M]: they thread the history of observable
    events (network calls, log records, back-off sleeps) and either
    return a value or raise an exception. *)

From Stdlib Require Import String List ZArith Bool Lia SpecFloat DecimalString.
Import ListNotations.

Open Scope string_scope.
Open Scope Z_scope.
Open Scope list_scope.

(** ** Data model *)

(** Python's [float]. *)
Definition float := spec_float.

(** A conversation turn: the dict [{'role': ..., 'content': ...}]. *)
Record Message := mkMessage { role : string; content : string }.

(** Values of the open keyword bag [**kwargs]. *)
Inductive PyValue :=
| PyNone
| PyBool (b : bool)
| PyInt (z : Z)
| PyFloat (f : float)
| PyStr (s : string).

Definition Kwargs := list (string * PyValue).

(** Exceptions (subclasses of [Exception]) that can travel through the
    manager.  [APIError] stands for anything a provider SDK raises from
    its [create] call; [RetryError] is tenacity's wrapper around the
    outcome of the last attempt. *)
Inductive Exn :=
| ValueError (msg : string)
| IndexError (msg : string)
| APIError (detail : string)
| RetryError (last_attempt : Exn).

Inductive Outcome (A : Type) :=
| Returned (a : A)
| Raised (e : Exn).
Arguments Returned {A} a.
Arguments Raised {A} e.

(** Keyword arguments of [chat.completions.create] (OpenAI and Groq). *)
Record ChatCreate := mkChatCreate {
  cc_model : string;
  cc_messages : list Message;
  cc_temperature : float;
  cc_max_tokens : Z;
  cc_extra : Kwargs
}.

(** Keyword arguments of [messages.create] (Anthropic); [mc_extra] holds
    whatever is passed beyond the five named ones. *)
Record MessagesCreate := mkMessagesCreate {
  mc_model : string;
  mc_max_tokens : Z;
  mc_temperature : float;
  mc_system : option string;
  mc_messages : list Message;
  mc_extra : Kwargs
}.

(** The parts of the provider responses the code reads. *)
Record Choice := mkChoice { message_content : string; finish_reason : string }.
Record ChatUsage := mkChatUsage {
  prompt_tokens : Z; completion_tokens : Z; total_tokens : Z }.
Record ChatCompletion := mkChatCompletion {
  choices : list Choice; usage : ChatUsage }.

Record TextBlock := mkTextBlock { text : string }.
Record AnthropicUsage := mkAnthropicUsage { input_tokens : Z; output_tokens : Z }.
Record AnthropicMessage := mkAnthropicMessage {
  response_content : list TextBlock;
  response_usage : AnthropicUsage;
  stop_reason : string
}.

(** The dict every adapter returns. *)
Record CompletionResult := mkResult {
  res_content : string;
  res_tokens : Z;
  res_finish_reason : string;
  res_model : string;
  res_provider : string
}.

(** ** Observable events *)

Inductive NetCall :=
| OpenAICall (kw : ChatCreate)
| AnthropicCall (kw : MessagesCreate)
| GroqCall (kw : ChatCreate).

Inductive Event :=
| Net (c : NetCall)
| LogInfo (msg : string)
| LogError (msg : string) (e : Exn)
| Sleep (seconds : Z).

Definition History := list Event.

Definition is_net (ev : Event) : bool :=
  match ev with Net _ => true | _ => false end.

(** Number of network calls made so far. *)
Definition net_calls (h : History) : nat := length (filter is_net h).

(** ** Client handles and the manager object *)

(** A handle answers a [create] call; the answer may depend on how many
    network calls the process has made before (so that a provider can
    fail now and succeed on a later attempt). *)
Definition ChatClient := nat -> ChatCreate -> Outcome ChatCompletion.
Definition MessagesClient := nat -> MessagesCreate -> Outcome AnthropicMessage.

Record LLMManager := mkManager {
  openai_client : option ChatClient;
  anthropic_client : option MessagesClient;
  groq_client : option ChatClient
}.

(** The three settings the manager reads. *)
Record Settings := mkSettings {
  OPENAI_MODEL : string;
  ANTHROPIC_MODEL : string;
  GROQ_MODEL : string
}.

(** The defaults of [class Settings]. *)
Definition settings : Settings :=
  {| OPENAI_MODEL := "gpt-4";
     ANTHROPIC_MODEL := "claude-3-sonnet-20240229";
     GROQ_MODEL := "llama-3.3-70b-versatile" |}.

(** ** The coroutine monad *)

Definition M (A : Type) : Type := History -> Outcome A * History.

Definition ret {A} (a : A) : M A := fun h => (Returned a, h).

Definition bind {A B} (m : M A) (f : A -> M B) : M B :=
  fun h =>
    match m h with
    | (Returned a, h') => f a h'
    | (Raised e, h') => (Raised e, h')
    end.

Definition raise {A} (e : Exn) : M A := fun h => (Raised e, h).

(** [try: m except Exception as e: handler e]. *)
Definition try_except {A} (m : M A) (handler : Exn -> M A) : M A :=
  fun h =>
    match m h with
    | (Returned a, h') => (Returned a, h')
    | (Raised e, h') => handler e h'
    end.

Definition emit (ev : Event) : M unit := fun h => (Returned tt, h ++ [ev]).

(** [await client.create] with keyword arguments [kw]: the call is
    recorded, the handle answers. *)
Definition await_create {A} (c : NetCall) (answer : nat -> Outcome A) : M A :=
  fun h => (answer (net_calls h), h ++ [Net c]).

Declare Scope coro_scope.
Delimit Scope coro_scope with coro.
Notation "x <- m ;; k" := (bind m (fun x => k))
  (at level 61, m at next level, right associativity) : coro_scope.
Notation "m ;; k" := (bind m (fun _ => k))
  (at level 61, right associativity) : coro_scope.
Open Scope coro_scope.

(** [xs[0]]. *)
Definition index0 {A} (xs : list A) : M A :=
  match xs with
  | x :: _ => ret x
  | [] => raise (IndexError "list index out of range")
  end.

(** [s.startswith(p)]. *)
Definition startswith (s p : string) : bool := String.prefix p s.

(** Truth value of a client attribute in a condition. *)
Definition truthy {A} (c : option A) : bool :=
  match c with Some _ => true | None => false end.

(** ** Provider adapters *)

Definition _generate_openai (self : LLMManager) (messages : list Message)
    (model : string) (temperature : float) (max_tokens : Z) (kwargs : Kwargs)
    : M CompletionResult :=
  match openai_client self with
  | None => raise (ValueError "OpenAI client not initialized. Check API key.")
  | Some client =>
      try_except
        (let kw := {| cc_model := model; cc_messages := messages;
                      cc_temperature := temperature;
                      cc_max_tokens := max_tokens; cc_extra := kwargs |} in
         response <- await_create (OpenAICall kw) (fun n => client n kw) ;;
         first <- index0 (choices response) ;;
         ret {| res_content := message_content first;
                res_tokens := total_tokens (usage response);
                res_finish_reason := finish_reason first;
                res_model := model;
                res_provider := "openai" |})
        (fun e => emit (LogError "OpenAI API error" e) ;; raise e)
  end.

(** The loop of [_generate_anthropic] that splits the message list. *)
Definition convert_step (acc : option string * list Message) (msg : Message)
    : option string * list Message :=
  let (system_message, anthropic_messages) := acc in
  if String.eqb (role msg) "system"
  then (Some (content msg), anthropic_messages)
  else (system_message,
        anthropic_messages ++ [{| role := role msg; content := content msg |}]).

Definition convert_messages (messages : list Message)
    : option string * list Message :=
  fold_left convert_step messages (None, []).

Definition _generate_anthropic (self : LLMManager) (messages : list Message)
    (model : string) (temperature : float) (max_tokens : Z) (kwargs : Kwargs)
    : M CompletionResult :=
  match anthropic_client self with
  | None => raise (ValueError "Anthropic client not initialized. Check API key.")
  | Some client =>
      try_except
        (let (system_message, anthropic_messages) := convert_messages messages in
         let kw := {| mc_model := model; mc_max_tokens := max_tokens;
                      mc_temperature := temperature;
                      mc_system := system_message;
                      mc_messages := anthropic_messages;
                      mc_extra := [] |} in
         response <- await_create (AnthropicCall kw) (fun n => client n kw) ;;
         first <- index0 (response_content response) ;;
         ret {| res_content := text first;
                res_tokens := input_tokens (response_usage response)
                              + output_tokens (response_usage response);
                res_finish_reason := stop_reason response;
                res_model := model;
                res_provider := "anthropic" |})
        (fun e => emit (LogError "Anthropic API error" e) ;; raise e)
  end.

Definition _generate_groq (self : LLMManager) (messages : list Message)
    (model : string) (temperature : float) (max_tokens : Z) (kwargs : Kwargs)
    : M CompletionResult :=
  match groq_client self with
  | None => raise (ValueError "Groq client not initialized. Check API key.")
  | Some client =>
      try_except
        (let kw := {| cc_model := model; cc_messages := messages;
                      cc_temperature := temperature;
                      cc_max_tokens := max_tokens; cc_extra := kwargs |} in
         response <- await_create (GroqCall kw) (fun n => client n kw) ;;
         first <- index0 (choices response) ;;
         ret {| res_content := message_content first;
                res_tokens := total_tokens (usage response);
                res_finish_reason := finish_reason first;
                res_model := model;
                res_provider := "groq" |})
        (fun e => emit (LogError "Groq API error" e) ;; raise e)
  end.

(** ** The completion router *)

(** Body of [generate_completion], the coroutine the retry decorator
    wraps.  [cfg] is the module-level [settings] object. *)
Definition generate_completion_body (self : LLMManager) (cfg : Settings)
    (messages : list Message) (model : string) (temperature : float)
    (max_tokens : Z) (kwargs : Kwargs) : M CompletionResult :=
  try_except
    (if (startswith model "gpt" || startswith model "o1")
        && truthy (openai_client self)
     then _generate_openai self messages model temperature max_tokens kwargs
     else if startswith model "claude" && truthy (anthropic_client self)
     then _generate_anthropic self messages model temperature max_tokens kwargs
     else if (startswith model "llama" || startswith model "mixtral"
              || startswith model "gemma")
             && truthy (groq_client self)
     then _generate_groq self messages model temperature max_tokens kwargs
     else
       emit (LogInfo ("Model " ++ model ++
         " requested but provider not available or unknown. Falling back to available provider.")%string) ;;
       if truthy (groq_client self) then
         let target_model :=
           if startswith model "llama" || startswith model "mixtral"
           then model else GROQ_MODEL cfg in
         _generate_groq self messages target_model temperature max_tokens kwargs
       else if truthy (openai_client self) then
         let target_model :=
           if startswith model "gpt" then model else OPENAI_MODEL cfg in
         _generate_openai self messages target_model temperature max_tokens kwargs
       else if truthy (anthropic_client self) then
         let target_model :=
           if startswith model "claude" then model else ANTHROPIC_MODEL cfg in
         _generate_anthropic self messages target_model temperature max_tokens kwargs
       else
         raise (ValueError "No LLM providers initialized. Please check your API keys."))
    (fun e => emit (LogError "LLM generation error" e) ;; raise e).

(** ** The retry decorator (tenacity) *)

(** [wait_exponential(multiplier, min, max)], base 2: the delay after the
    attempt numbered [attempt_number] (counted from 1). *)
Definition wait_exponential (multiplier min max : Z) (attempt_number : nat) : Z :=
  let exp := 2 ^ (Z.of_nat attempt_number - 1) in
  let result := multiplier * exp in
  Z.max (Z.max 0 min) (Z.min result max).

(** The attempt loop of tenacity's [retry(stop=stop_after_attempt(n),
    wait=w, reraise=b)].  Every [Exception] is retried (the default
    [retry_if_exception_type()]).  After a failed attempt, when the stop
    condition holds, tenacity builds [RetryError(last_attempt)] and
    raises the attempt's own exception if [reraise] is set, the
    [RetryError] otherwise; when it does not hold, it sleeps for
    [wait(attempt_number)] and tries again.  [remaining] is
    [n - attempt_number]: the stop condition [attempt_number >= n] holds
    exactly when it is [0]. *)
Fixpoint attempts_from {A} (remaining attempt_number : nat) (wait : nat -> Z)
    (reraise : bool) (fn : M A) : M A :=
  try_except fn
    (fun e =>
       match remaining with
       | O => if reraise then raise e else raise (RetryError e)
       | S remaining' =>
           emit (Sleep (wait attempt_number)) ;;
           attempts_from remaining' (S attempt_number) wait reraise fn
       end).

Definition retry {A} (stop_after_attempt : nat) (wait : nat -> Z)
    (reraise : bool) (fn : M A) : M A :=
  attempts_from (stop_after_attempt - 1)%nat 1%nat wait reraise fn.

(** [LLMManager.generate_completion] as callers see it: the decorator
    names [stop] and [wait] only, so [reraise] has its default, [False]. *)
Definition generate_completion (self : LLMManager) (cfg : Settings)
    (messages : list Message) (model : string) (temperature : float)
    (max_tokens : Z) (kwargs : Kwargs) : M CompletionResult :=
  retry 3 (wait_exponential 1 4 10) false
    (generate_completion_body self cfg messages model temperature max_tokens kwargs).

(** ** Availability query *)

Definition is_not_None {A} (c : option A) : bool :=
  match c with Some _ => true | None => false end.

Definition is_available (self : LLMManager) (provider : string) : bool :=
  if String.eqb provider "openai" then is_not_None (openai_client self)
  else if String.eqb provider "anthropic" then is_not_None (anthropic_client self)
  else if String.eqb provider "groq" then is_not_None (groq_client self)
  else false.

(** ** Notions used to state the properties *)

Inductive Family := OpenAI | Anthropic | Groq.

Definition family_name (f : Family) : string :=
  match f with OpenAI => "openai" | Anthropic => "anthropic" | Groq => "groq" end.

(** Whether the manager holds a client for the family. *)
Definition registered (self : LLMManager) (f : Family) : bool :=
  match f with
  | OpenAI => truthy (openai_client self)
  | Anthropic => truthy (anthropic_client self)
  | Groq => truthy (groq_client self)
  end.

(** The family a model identifier names by its prefix: the prefix tests
    of the three routing conditions of [generate_completion]. *)
Definition inferred_family (model : string) : option Family :=
  if startswith model "gpt" || startswith model "o1" then Some OpenAI
  else if startswith model "claude" then Some Anthropic
  else if startswith model "llama" || startswith model "mixtral"
          || startswith model "gemma" then Some Groq
  else None.

(** The fallback priority order of the [else] branch. *)
Definition fallback_order : list Family := [Groq; OpenAI; Anthropic].

Definition first_available (self : LLMManager) : option Family :=
  find (registered self) fallback_order.

Definition default_model (cfg : Settings) (f : Family) : string :=
  match f with
  | OpenAI => OPENAI_MODEL cfg
  | Anthropic => ANTHROPIC_MODEL cfg
  | Groq => GROQ_MODEL cfg
  end.

(** Family and model of a recorded network call. *)
Definition call_family (c : NetCall) : Family :=
  match c with
  | OpenAICall _ => OpenAI
  | AnthropicCall _ => Anthropic
  | GroqCall _ => Groq
  end.

Definition call_model (c : NetCall) : string :=
  match c with
  | OpenAICall kw | GroqCall kw => cc_model kw
  | AnthropicCall kw => mc_model kw
  end.

Definition call_temperature (c : NetCall) : float :=
  match c with
  | OpenAICall kw | GroqCall kw => cc_temperature kw
  | AnthropicCall kw => mc_temperature kw
  end.

Definition call_max_tokens (c : NetCall) : Z :=
  match c with
  | OpenAICall kw | GroqCall kw => cc_max_tokens kw
  | AnthropicCall kw => mc_max_tokens kw
  end.

Definition call_extra (c : NetCall) : Kwargs :=
  match c with
  | OpenAICall kw | GroqCall kw => cc_extra kw
  | AnthropicCall kw => mc_extra kw
  end.

(** ** Sample clients and inputs *)

Definition sample_completion : ChatCompletion :=
  {| choices := [ {| message_content := "ok"; finish_reason := "stop" |} ];
     usage := {| prompt_tokens := 7; completion_tokens := 5; total_tokens := 12 |} |}.

Definition sample_message : AnthropicMessage :=
  {| response_content := [ {| text := "ok" |} ];
     response_usage := {| input_tokens := 120; output_tokens := 80 |};
     stop_reason := "end_turn" |}.

Definition chat_ok : ChatClient := fun _ _ => Returned sample_completion.
Definition messages_ok : MessagesClient := fun _ _ => Returned sample_message.
Definition chat_down : ChatClient := fun _ _ => Raised (APIError "rate limit").

(** The double [0.5]: mantissa [2^52], exponent [-53]. *)
Definition half : float := S754_finite false 4503599627370496 (-53).

Definition hello : list Message := [ {| role := "user"; content := "hello" |} ].

Definition only_openai : LLMManager :=
  {| openai_client := Some chat_ok; anthropic_client := None; groq_client := None |}.
Definition only_anthropic : LLMManager :=
  {| openai_client := None; anthropic_client := Some messages_ok; groq_client := None |}.
Definition only_groq : LLMManager :=
  {| openai_client := None; anthropic_client := None; groq_client := Some chat_ok |}.
Definition no_provider : LLMManager :=
  {| openai_client := None; anthropic_client := None; groq_client := None |}.
Definition openai_down : LLMManager :=
  {| openai_client := Some chat_down; anthropic_client := None; groq_client := None |}.

(** The adapter method of a family. *)
Definition adapter (f : Family) :=
  match f with
  | OpenAI => _generate_openai
  | Anthropic => _generate_anthropic
  | Groq => _generate_groq
  end.

Definition has_first {A} (xs : list A) : bool :=
  match xs with [] => false | _ :: _ => true end.

(** The provider answers the call, made as network call number [n], with
    a response that carries a first choice (a first content block). *)
Definition answers (self : LLMManager) (n : nat) (c : NetCall) : bool :=
  match c with
  | OpenAICall kw =>
      match openai_client self with
      | Some client =>
          match client n kw with
          | Returned response => has_first (choices response)
          | Raised _ => false
          end
      | None => false
      end
  | AnthropicCall kw =>
      match anthropic_client self with
      | Some client =>
          match client n kw with
          | Returned response => has_first (response_content response)
          | Raised _ => false
          end
      | None => false
      end
  | GroqCall kw =>
      match groq_client self with
      | Some client =>
          match client n kw with
          | Returned response => has_first (choices response)
          | Raised _ => false
          end
      | None => false
      end
  end.

(** The requested model's own family is registered. *)
Definition native_registered (self : LLMManager) (model : string) : bool :=
  match inferred_family model with
  | Some f => registered self f
  | None => false
  end.

Definition fallback_notice (model : string) : Event :=
  LogInfo ("Model " ++ model ++
    " requested but provider not available or unknown. Falling back to available provider.")%string.

Definition is_system (msg : Message) : bool := String.eqb (role msg) "system".

(** Content of the last system-role message, if there is one. *)
Fixpoint last_system (messages : list Message) : option string :=
  match messages with
  | [] => None
  | msg :: rest =>
      match last_system rest with
      | Some s => Some s
      | None => if is_system msg then Some (content msg) else None
      end
  end.

Definition non_system (messages : list Message) : list Message :=
  filter (fun msg => negb (is_system msg)) messages.

(** The conversation of the extraction example, and one with two
    system-role messages. *)
Definition one_system : list Message :=
  [ {| role := "system"; content := "S" |};
    {| role := "user"; content := "U1" |};
    {| role := "assistant"; content := "A1" |};
    {| role := "user"; content := "U2" |} ].

Definition two_systems : list Message :=
  [ {| role := "system"; content := "S1" |};
    {| role := "user"; content := "U" |};
    {| role := "system"; content := "S2" |} ].

Definition no_providers_error : Exn :=
  ValueError "No LLM providers initialized. Please check your API keys.".

(** ** Construction of the manager *)

(** The credentials of [class Settings]: two optional keys and the
    required Groq key. *)
Record ApiKeys := mkApiKeys {
  OPENAI_API_KEY : option string;
  ANTHROPIC_API_KEY : option string;
  GROQ_API_KEY : string
}.

(** The three SDK constructors; each may raise. *)
Record Sdk := mkSdk {
  AsyncOpenAI : string -> Outcome ChatClient;
  AsyncAnthropic : string -> Outcome MessagesClient;
  AsyncGroq : string -> Outcome ChatClient
}.

(** Truth value of a [str] and of an [Optional[str]] in a condition. *)
Definition str_truthy (s : string) : bool :=
  match s with EmptyString => false | String _ _ => true end.

Definition key_truthy (k : option string) : bool :=
  match k with Some s => str_truthy s | None => false end.

(** [LLMManager.__init__]: the three attributes start as [None]; each
    client is built inside its own [try] when its key is truthy. *)
Definition __init__ (sdk : Sdk) (keys : ApiKeys) : M LLMManager :=
  let openai_client := None in
  let anthropic_client := None in
  let groq_client := None in
  openai_client <-
    (match OPENAI_API_KEY keys with
     | Some key =>
         if str_truthy key then
           match AsyncOpenAI sdk key with
           | Returned client =>
               emit (LogInfo "OpenAI client initialized") ;; ret (Some client)
           | Raised e =>
               emit (LogError "Failed to initialize OpenAI client" e) ;;
               ret openai_client
           end
         else ret openai_client
     | None => ret openai_client
     end) ;;
  anthropic_client <-
    (match ANTHROPIC_API_KEY keys with
     | Some key =>
         if str_truthy key then
           match AsyncAnthropic sdk key with
           | Returned client =>
               emit (LogInfo "Anthropic client initialized") ;; ret (Some client)
           | Raised e =>
               emit (LogError "Failed to initialize Anthropic client" e) ;;
               ret anthropic_client
           end
         else ret anthropic_client
     | None => ret anthropic_client
     end) ;;
  groq_client <-
    (if str_truthy (GROQ_API_KEY keys) then
       match AsyncGroq sdk (GROQ_API_KEY keys) with
       | Returned client =>
           emit (LogInfo "Groq client initialized") ;; ret (Some client)
       | Raised e =>
           emit (LogError "Failed to initialize Groq client" e) ;;
           ret groq_client
       end
     else ret groq_client) ;;
  ret {| openai_client := openai_client;
         anthropic_client := anthropic_client;
         groq_client := groq_client |}.

(** ** Embeddings *)

(** Keyword arguments and response of [embeddings.create]. *)
Record EmbeddingsCreate := mkEmbeddingsCreate {
  ec_model : string;
  ec_input : list string
}.
Record EmbeddingItem := mkEmbeddingItem { embedding : list float }.
Record EmbeddingsResponse := mkEmbeddingsResponse { data : list EmbeddingItem }.

(** The [embeddings.create] method of the OpenAI client object (the
    handle kept in the manager is its chat method). *)
Definition EmbeddingsClient := nat -> EmbeddingsCreate -> Outcome EmbeddingsResponse.

(** Events of the embedding coroutines. *)
Inductive EmbeddingEvent :=
| EmbeddingsCall (kw : EmbeddingsCreate)
| EmbeddingsLogError (msg : string) (e : Exn).

Definition is_embeddings_call (ev : EmbeddingEvent) : bool :=
  match ev with EmbeddingsCall _ => true | EmbeddingsLogError _ _ => false end.

Definition embeddings_calls (h : list EmbeddingEvent) : nat :=
  length (filter is_embeddings_call h).

(** [generate_embeddings]; the decorator of [generate_completion] is not
    on it. *)
Definition generate_embeddings (self : LLMManager) (create : EmbeddingsClient)
    (texts : list string) (model : string)
    : list EmbeddingEvent -> Outcome (list (list float)) * list EmbeddingEvent :=
  fun h =>
    if negb (truthy (openai_client self))
    then (Raised (ValueError "OpenAI client not initialized. Check API key."), h)
    else
      let kw := {| ec_model := model; ec_input := texts |} in
      match create (embeddings_calls h) kw with
      | Returned response =>
          (Returned (map embedding (data response)), h ++ [EmbeddingsCall kw])
      | Raised e =>
          (Raised e,
           h ++ [EmbeddingsCall kw;
                 EmbeddingsLogError "Embedding generation error" e])
      end.

(** [generate_single_embedding]. *)
Definition generate_single_embedding (self : LLMManager) (create : EmbeddingsClient)
    (text : string) (model : string)
    : list EmbeddingEvent -> Outcome (list float) * list EmbeddingEvent :=
  fun h =>
    match generate_embeddings self create [text] model h with
    | (Returned embeddings, h') =>
        (Returned (match embeddings with first :: _ => first | [] => [] end), h')
    | (Raised e, h') => (Raised e, h')
    end.

(** [count_tokens]: [len(text) // 4]. *)
Definition count_tokens (text : string) (model : string) : Z :=
  Z.of_nat (String.length text) / 4.

Definition is_sleep (ev : Event) : bool :=
  match ev with Sleep _ => true | _ => false end.

(** A client whose first two calls are refused. *)
Definition chat_flaky : ChatClient :=
  fun n _ => if (n <? 2)%nat then Raised (APIError "rate limit")
             else Returned sample_completion.

Definition openai_flaky : LLMManager :=
  {| openai_client := Some chat_flaky; anthropic_client := None; groq_client := None |}.

(** A client that answers without any choice. *)
Definition chat_mute : ChatClient :=
  fun _ _ => Returned {| choices := []; usage := usage sample_completion |}.

Definition openai_mute : LLMManager :=
  {| openai_client := Some chat_mute; anthropic_client := None; groq_client := None |}.

Definition sdk_ok : Sdk :=
  {| AsyncOpenAI := fun _ => Returned chat_ok;
     AsyncAnthropic := fun _ => Returned messages_ok;
     AsyncGroq := fun _ => Returned chat_ok |}.

(** An SDK whose OpenAI constructor raises. *)
Definition sdk_openai_broken : Sdk :=
  {| AsyncOpenAI := fun _ => Raised (APIError "bad key");
     AsyncAnthropic := fun _ => Returned messages_ok;
     AsyncGroq := fun _ => Returned chat_ok |}.

Definition groq_only_keys : ApiKeys :=
  {| OPENAI_API_KEY := None; ANTHROPIC_API_KEY := Some ""; GROQ_API_KEY := "gsk" |}.

Definition all_keys : ApiKeys :=
  {| OPENAI_API_KEY := Some "sk"; ANTHROPIC_API_KEY := Some "ak"; GROQ_API_KEY := "gsk" |}.

Definition embeddings_ok : EmbeddingsClient :=
  fun _ kw => Returned {| data := map (fun _ => {| embedding := [half] |}) (ec_input kw) |}.

(** The message each adapter logs with a provider failure. *)
Definition adapter_log (f : Family) : string :=
  match f with
  | OpenAI => "OpenAI API error"
  | Anthropic => "Anthropic API error"
  | Groq => "Groq API error"
  end.

(** The events of an attempt that fails at the provider: the optional
    fallback notice, the call, and the failure logged by the adapter and
    by the router. *)
Definition failed_attempt (notice : list Event) (c : NetCall) (e : Exn)
    : list Event :=
  notice ++ [Net c; LogError (adapter_log (call_family c)) e;
             LogError "LLM generation error" e].

(** Which of the three calls of a completion, numbered from 1, is the
    first the provider answers, when the first is network call number
    [n]. *)
Definition first_answer (self : LLMManager) (n : nat) (c : NetCall) : option nat :=
  if answers self n c then Some 1%nat
  else if answers self (S n) c then Some 2%nat
  else if answers self (S (S n)) c then Some 3%nat
  else None.

(** The chat client of a family that has one. *)
Definition chat_client (self : LLMManager) (f : Family) : option ChatClient :=
  match f with
  | OpenAI => openai_client self
  | Groq => groq_client self
  | Anthropic => None
  end.

(** ** The chat endpoint ([api/v1/chat.py]) *)

(** What an endpoint gives back: its response, or
    [HTTPException(status_code, detail)] where [detail] is the literal
    text followed by [str(e)] of the exception [about]. *)
Inductive HttpOutcome (A : Type) :=
| Responded (a : A)
| HTTPException (status_code : Z) (detail : string) (about : option Exn).
Arguments Responded {A} a.
Arguments HTTPException {A} status_code detail about.

(** [class Message] of the chat request. *)
Record ChatHistoryMessage := mkChatHistoryMessage {
  chat_role : string;
  chat_content : string;
  chat_timestamp : option string
}.

(** The slice [xs[-n:]], for [n > 0]. *)
Definition last_items {A} (n : nat) (xs : list A) : list A :=
  skipn (length xs - n) xs.

(** The f-string [system_prompt] of [_build_messages]. *)
Definition chat_system_prompt (paper_context : string) : string :=
  ("You are Synthia, an AI research assistant specializing in academic literature analysis.
You help researchers understand, compare, and synthesize research papers.

Papers in this session:
" ++ paper_context ++ "

Guidelines:
- Provide accurate, insightful analysis based on the papers
- Cite specific papers when referencing information
- Be concise but thorough
- Ask clarifying questions when needed
- Highlight connections between papers
- Point out contradictions or gaps in research")%string.

Definition _build_messages (user_message : string)
    (history : list ChatHistoryMessage) (paper_context : string)
    : list Message :=
  let system_prompt := chat_system_prompt paper_context in
  let messages := [ {| role := "system"; content := system_prompt |} ] in
  let messages :=
    fold_left
      (fun messages msg =>
         messages ++ [ {| role := chat_role msg; content := chat_content msg |} ])
      (last_items 10 history) messages in
  messages ++ [ {| role := "user"; content := user_message |} ].

(** [str] of an [int]. *)
Definition str_int (z : Z) : string := NilZero.string_of_int (Z.to_int z).

Record ChatMetadata := mkChatMetadata {
  meta_model : string;
  meta_tokens : Z;
  meta_finish_reason : string
}.

Record ChatCompletionResponse := mkChatCompletionResponse {
  response_text : string;
  response_metadata : ChatMetadata
}.

Section ChatCompletion.

(** The papers of a request are untyped dicts; their type and the
    function [_build_paper_context] that formats them (and may raise
    on a value of an unexpected type) are parameters here. *)
Variable Papers : Type.
Variable _build_paper_context : Papers -> Outcome string.

(** [class ChatContext], without the two optional fields the endpoint
    does not read. *)
Record ChatContext := mkChatContext {
  sessionId : string;
  papers : Papers;
  conversationHistory : list ChatHistoryMessage
}.

Record ChatCompletionRequest := mkChatCompletionRequest {
  rq_message : string;
  rq_context : ChatContext;
  rq_model : string;
  rq_temperature : float;
  rq_maxTokens : Z
}.

(** The [try] block of [chat_completion]. *)
Definition chat_completion_try (llm_manager : LLMManager) (cfg : Settings)
    (request : ChatCompletionRequest) : M ChatCompletionResponse :=
  emit (LogInfo ("Chat completion request for session: "
                 ++ sessionId (rq_context request))%string) ;;
  paper_context <-
    (fun h => (_build_paper_context (papers (rq_context request)), h)) ;;
  let messages :=
    _build_messages (rq_message request)
      (conversationHistory (rq_context request)) paper_context in
  response <-
    generate_completion llm_manager cfg messages (rq_model request)
      (rq_temperature request) (rq_maxTokens request) [] ;;
  emit (LogInfo ("Chat completion successful. Tokens used: "
                 ++ str_int (res_tokens response))%string) ;;
  ret {| response_text := res_content response;
         response_metadata :=
           {| meta_model := rq_model request;
              meta_tokens := res_tokens response;
              meta_finish_reason := res_finish_reason response |} |}.

(** [chat_completion]: every exception of the block becomes a 500. *)
Definition chat_completion (llm_manager : LLMManager) (cfg : Settings)
    (request : ChatCompletionRequest)
    : History -> HttpOutcome ChatCompletionResponse * History :=
  fun h =>
    match chat_completion_try llm_manager cfg request h with
    | (Returned response, h') => (Responded response, h')
    | (Raised e, h') =>
        (HTTPException 500 "Failed to generate chat completion: " (Some e),
         h' ++ [LogError "Chat completion error" e])
    end.

End ChatCompletion.

(** ** The writing endpoint ([api/v1/writing.py]) *)

Record WritingAnalysisRequest := mkWritingAnalysisRequest {
  request_text : string;
  analysis_types : list string
}.

Record Suggestion := mkSuggestion {
  suggestion_title : string;
  suggestion_description : string;
  suggestion_category : string;
  suggestion_severity : string;
  suggestion_original : option string;
  suggestion_replacement : option string;
  suggestion_explanation : option string
}.

(** The dict [suggestions], then the response built from it. *)
Record WritingAnalysisResponse := mkWritingAnalysisResponse {
  grammar : list Suggestion;
  style : list Suggestion;
  clarity : list Suggestion;
  academic : list Suggestion;
  improvements : list string
}.

(** [json.loads(obj)] for an [obj] that is a [dict]: the function accepts
    [str], [bytes] and [bytearray] only and raises [TypeError] for
    anything else, before it parses. *)
Inductive JsonLoads (A : Type) :=
| JsonValue (v : A)
| JsonTypeError (msg : string).
Arguments JsonValue {A} v.
Arguments JsonTypeError {A} msg.

Definition json_loads_dict {A} (obj : CompletionResult) : JsonLoads A :=
  JsonTypeError "the JSON object must be str, bytes or bytearray, not dict".

(** The five f-string prompts. *)
Definition grammar_prompt (text : string) : string :=
  ("
            Analyze the following text for grammar issues. Return a JSON array of issues found.
            For each issue, provide:
            - title: Brief title of the issue
            - description: What's wrong
            - category: Type of grammar issue
            - severity: 'error' or 'warning'
            - original: The problematic text
            - replacement: Corrected version
            - explanation: Why it's wrong and how to fix it

            Text: " ++ text ++ "

            Return ONLY a JSON array, no other text.
            ")%string.

Definition style_prompt (text : string) : string :=
  ("
            Analyze the following text for style improvements. Return a JSON array of suggestions.
            Focus on:
            - Wordiness
            - Passive voice
            - Repetition
            - Weak verbs
            - Clichés

            For each suggestion, provide:
            - title: What to improve
            - description: Why it should be changed
            - category: 'wordiness', 'passive', 'repetition', etc.
            - severity: 'warning' or 'info'
            - original: Current text
            - replacement: Better version
            - explanation: Why the replacement is better

            Text: " ++ text ++ "

            Return ONLY a JSON array, no other text.
            ")%string.

Definition clarity_prompt (text : string) : string :=
  ("
            Analyze the following text for clarity issues. Return a JSON array of suggestions.
            Focus on:
            - Complex sentences
            - Jargon without explanation
            - Ambiguous references
            - Unclear transitions
            - Confusing structure

            For each issue, provide:
            - title: What's unclear
            - description: How it affects clarity
            - category: 'complexity', 'jargon', 'ambiguity', etc.
            - severity: 'warning' or 'info'
            - original: Unclear text
            - replacement: Clearer version
            - explanation: How the replacement improves clarity

            Text: " ++ text ++ "

            Return ONLY a JSON array, no other text.
            ")%string.

Definition academic_prompt (text : string) : string :=
  ("
            Analyze the following text for academic writing standards. Return a JSON array of suggestions.
            Focus on:
            - Formal tone
            - First/second person usage
            - Contractions
            - Colloquialisms
            - Citation needs
            - Hedging language
            - Thesis clarity

            For each issue, provide:
            - title: Academic writing issue
            - description: What needs improvement
            - category: 'tone', 'citations', 'formality', etc.
            - severity: 'warning' or 'info'
            - original: Current text (if applicable)
            - replacement: More academic version (if applicable)
            - explanation: Why this is important in academic writing

            Text: " ++ text ++ "

            Return ONLY a JSON array, no other text.
            ")%string.

Definition improvements_prompt (text : string) : string :=
  ("
        Based on this text, provide 3-5 high-level suggestions for improvement.
        Focus on the biggest impact changes.
        Return ONLY a JSON array of strings, no other text.

        Text: " ++ text ++ "
        ")%string.

(** The doubles [0.3], [0.4] and [0.6]. *)
Definition three_tenths : float := S754_finite false 5404319552844595 (-54).
Definition four_tenths : float := S754_finite false 7205759403792794 (-54).
Definition six_tenths : float := S754_finite false 5404319552844595 (-53).

(** [x in xs] for strings. *)
Definition str_in (x : string) (xs : list string) : bool :=
  existsb (String.eqb x) xs.

Definition default_improvements : list string :=
  [ "Review overall structure and flow";
    "Check all citations and references";
    "Ensure consistent academic tone";
    "Verify all claims are supported";
    "Proofread for grammar and clarity" ].

(** One analysis of [analyze_writing]: the completion is requested with
    the default model and token limit, its result (a dict) goes to
    [json.loads], and the bare [except] passes over whatever that
    raises. *)
Definition analysis_step (llm_manager : LLMManager) (cfg : Settings)
    (prompt : string) (temperature : float)
    (store : list Suggestion -> WritingAnalysisResponse)
    (suggestions : WritingAnalysisResponse) : M WritingAnalysisResponse :=
  result <-
    generate_completion llm_manager cfg
      [ {| role := "user"; content := prompt |} ] "gpt-4" temperature 2000 [] ;;
  match json_loads_dict result with
  | JsonValue issues => ret (store (firstn 10 issues))
  | JsonTypeError _ => ret suggestions
  end.

(** The part of the [try] block of [analyze_writing] after the length
    check. *)
Definition analyze_writing_try (llm_manager : LLMManager) (cfg : Settings)
    (request : WritingAnalysisRequest) : M WritingAnalysisResponse :=
  let suggestions :=
    {| grammar := []; style := []; clarity := []; academic := [];
       improvements := [] |} in
  suggestions <-
    (if str_in "grammar" (analysis_types request) then
       analysis_step llm_manager cfg (grammar_prompt (request_text request))
         three_tenths
         (fun issues =>
            {| grammar := issues; style := style suggestions;
               clarity := clarity suggestions; academic := academic suggestions;
               improvements := improvements suggestions |})
         suggestions
     else ret suggestions) ;;
  suggestions <-
    (if str_in "style" (analysis_types request) then
       analysis_step llm_manager cfg (style_prompt (request_text request))
         half
         (fun issues =>
            {| grammar := grammar suggestions; style := issues;
               clarity := clarity suggestions; academic := academic suggestions;
               improvements := improvements suggestions |})
         suggestions
     else ret suggestions) ;;
  suggestions <-
    (if str_in "clarity" (analysis_types request) then
       analysis_step llm_manager cfg (clarity_prompt (request_text request))
         four_tenths
         (fun issues =>
            {| grammar := grammar suggestions; style := style suggestions;
               clarity := issues; academic := academic suggestions;
               improvements := improvements suggestions |})
         suggestions
     else ret suggestions) ;;
  suggestions <-
    (if str_in "academic" (analysis_types request) then
       analysis_step llm_manager cfg (academic_prompt (request_text request))
         three_tenths
         (fun issues =>
            {| grammar := grammar suggestions; style := style suggestions;
               clarity := clarity suggestions; academic := issues;
               improvements := improvements suggestions |})
         suggestions
     else ret suggestions) ;;
  improvements_result <-
    generate_completion llm_manager cfg
      [ {| role := "user";
           content := improvements_prompt (request_text request) |} ]
      "gpt-4" six_tenths 2000 [] ;;
  ret {| grammar := grammar suggestions; style := style suggestions;
         clarity := clarity suggestions; academic := academic suggestions;
         improvements :=
           match json_loads_dict improvements_result with
           | JsonValue items => firstn 5 items
           | JsonTypeError _ => default_improvements
           end |}.

(** [analyze_writing]: the [HTTPException] of the length check passes
    through [except HTTPException: raise]; any other exception becomes a
    500. *)
Definition analyze_writing (llm_manager : LLMManager) (cfg : Settings)
    (request : WritingAnalysisRequest)
    : History -> HttpOutcome WritingAnalysisResponse * History :=
  fun h =>
    if Z.of_nat (String.length (request_text request)) <? 50
    then (HTTPException 400 "Text must be at least 50 characters" None, h)
    else
      match analyze_writing_try llm_manager cfg request h with
      | (Returned response, h') => (Responded response, h')
      | (Raised e, h') => (HTTPException 500 "Analysis failed: " (Some e), h')
      end.

(** A history message as [_build_messages] copies it. *)
Definition to_message (msg : ChatHistoryMessage) : Message :=
  {| role := chat_role msg; content := chat_content msg |}.

(** ** Paper summaries ([services/paper_analyzer.py]) *)

(** [class PaperData] of the analysis endpoints. *)
Record PaperData := mkPaperData {
  paper_id : string;
  paper_title : string;
  paper_authors : list string;
  paper_abstract : string;
  paper_keywords : list string;
  paper_methodology : option string;
  paper_keyFindings : option (list string)
}.

(** The dict [summarize_paper] returns. *)
Record PaperSummary := mkPaperSummary {
  summary_text : string;
  summary_kind : string;
  tokens_used : Z
}.

Definition summarize_paper (llm : LLMManager) (cfg : Settings)
    (paper : PaperData) (summary_type : string) : M PaperSummary :=
  try_except
    (let (instructions, max_tokens) :=
       if String.eqb summary_type "brief" then
         ("Provide a 2-3 sentence summary of the main contribution.", 200)
       else if String.eqb summary_type "technical" then
         ("Provide a technical summary including methodology, datasets, metrics, and results.",
          1000)
       else
         ("Provide a comprehensive summary including background, methodology, key findings, and implications.",
          800) in
     let prompt :=
       ("Summarize this research paper:

Title: " ++
     paper_title paper ++
     "
Authors: " ++
     String.concat ", " (paper_authors paper) ++
     "
Abstract: " ++
     paper_abstract paper ++
     "
Keywords: " ++
     String.concat ", " (paper_keywords paper) ++
     "

" ++
     instructions)%string in
     let messages :=
       [ {| role := "system";
            content := "You are an expert at summarizing academic papers clearly and accurately." |};
         {| role := "user"; content := prompt |} ] in
     response <-
       generate_completion llm cfg messages "gpt-4" three_tenths max_tokens [] ;;
     ret {| summary_text := res_content response;
            summary_kind := summary_type;
            tokens_used := res_tokens response |})
    (fun e => emit (LogError "Paper summarization error" e) ;; raise e).

(** Sample inputs of the callers. *)
Definition no_keys : ApiKeys :=
  {| OPENAI_API_KEY := None; ANTHROPIC_API_KEY := Some ""; GROQ_API_KEY := "" |}.

Definition no_papers (_ : unit) : Outcome string := Returned "No papers in context.".

Definition sample_chat_request : ChatCompletionRequest unit :=
  {| rq_message := "What is new here?";
     rq_context := {| sessionId := "s1"; papers := tt; conversationHistory := [] |};
     rq_model := "gpt-4";
     rq_temperature := half;
     rq_maxTokens := 2000 |}.

Definition sample_writing_request : WritingAnalysisRequest :=
  {| request_text :=
       "This sentence is long enough to be analysed by the writing endpoint.";
     analysis_types := ["grammar"; "style"; "clarity"; "academic"] |}.

Definition sample_paper : PaperData :=
  {| paper_id := "p1"; paper_title := "A Title"; paper_authors := ["A. Author"];
     paper_abstract := "An abstract."; paper_keywords := ["k1"; "k2"];
     paper_methodology := None; paper_keyFindings := None |}.

(** The keyword arguments the two chat adapters and the Anthropic adapter
    build from their own arguments. *)
Definition chat_kw (messages : list Message) (model : string) (t : float)
    (mt : Z) (kwargs : Kwargs) : ChatCreate :=
  {| cc_model := model; cc_messages := messages; cc_temperature := t;
     cc_max_tokens := mt; cc_extra := kwargs |}.

Definition anthropic_kw (messages : list Message) (model : string) (t : float)
    (mt : Z) : MessagesCreate :=
  {| mc_model := model; mc_max_tokens := mt; mc_temperature := t;
     mc_system := fst (convert_messages messages);
     mc_messages := snd (convert_messages messages); mc_extra := [] |}.

(** The recorded call of a chat family. *)
Definition chat_call (f : Family) (kw : ChatCreate) : NetCall :=
  match f with
  | Groq => GroqCall kw
  | _ => OpenAICall kw
  end.

(** [k] calls with a pause of four seconds before each but the first. *)
Definition calls_and_pauses (c : NetCall) (k : nat) : list Event :=
  match k with
  | O => []
  | S k' => Net c :: concat (repeat [Sleep 4; Net c] k')
  end.

Definition is_net_or_sleep (ev : Event) : bool := is_net ev || is_sleep ev.

(** An event that, when it is a network call, carries the given
    temperature and token limit. *)
Definition carries (t : float) (mt : Z) (ev : Event) : Prop :=
  match ev with
  | Net c => call_temperature c = t /\ call_max_tokens c = mt
  | _ => True
  end.

Arguments startswith : simpl never.

(** * Properties *)

(** ** The monad and the retry loop *)

Lemma try_except_returned {A} (m : M A) handler h a h' :
  m h = (Returned a, h') -> try_except m handler h = (Returned a, h').
Proof. unfold try_except. intros ->. reflexivity. Qed.

Lemma try_except_raised {A} (m : M A) handler h e h' :
  m h = (Raised e, h') -> try_except m handler h = handler e h'.
Proof. unfold try_except. intros ->. reflexivity. Qed.

Lemma log_and_raise {A} msg e h :
  (emit (LogError msg e) ;; @raise A e) h = (Raised e, h ++ [LogError msg e]).
Proof. reflexivity. Qed.

(** A retried coroutine that returns does so from one of its attempts. *)
Lemma attempts_from_returned {A} (fn : M A) wait reraise remaining :
  forall attempt_number h a h',
    attempts_from remaining attempt_number wait reraise fn h = (Returned a, h') ->
    exists h0, fn h0 = (Returned a, h').
Proof.
  induction remaining as [|k IH]; intros n h a h' H; simpl in H;
    unfold try_except in H; destruct (fn h) as [[x|e] h1] eqn:E.
  - exists h. now inversion H; subst.
  - destruct reraise; discriminate H.
  - exists h. now inversion H; subst.
  - unfold bind, emit in H. apply IH in H. exact H.
Qed.

(** A first attempt that returns ends the retry loop. *)
Lemma retry_first_attempt {A} (fn : M A) n wait reraise h a h' :
  fn h = (Returned a, h') -> retry n wait reraise fn h = (Returned a, h').
Proof.
  intros H. unfold retry. destruct (n - 1)%nat; simpl;
    now apply try_except_returned.
Qed.

(** The decorated coroutine, attempt by attempt: three attempts at most,
    a pause of four seconds after each of the first two failures. *)
Lemma generate_completion_unfold self cfg messages model t mt kw h :
  generate_completion self cfg messages model t mt kw h =
  let body := generate_completion_body self cfg messages model t mt kw in
  match body h with
  | (Returned r, h1) => (Returned r, h1)
  | (Raised _, h1) =>
      match body (h1 ++ [Sleep 4]) with
      | (Returned r, h2) => (Returned r, h2)
      | (Raised _, h2) =>
          match body (h2 ++ [Sleep 4]) with
          | (Returned r, h3) => (Returned r, h3)
          | (Raised e, h3) => (Raised (RetryError e), h3)
          end
      end
  end.
Proof.
  unfold generate_completion, retry. cbn [Nat.sub attempts_from].
  unfold try_except at 1. cbv zeta.
  destruct (generate_completion_body _ _ _ _ _ _ _ h) as [[r|e] h1]; [reflexivity|].
  unfold bind at 1, emit at 1. unfold try_except at 1.
  change (wait_exponential 1 4 10 1) with 4.
  destruct (generate_completion_body _ _ _ _ _ _ _ (h1 ++ [Sleep 4])) as [[r|e2] h2];
    [reflexivity|].
  unfold bind at 1, emit at 1. unfold try_except at 1.
  change (wait_exponential 1 4 10 2) with 4.
  destruct (generate_completion_body _ _ _ _ _ _ _ (h2 ++ [Sleep 4])) as [[r|e3] h3];
    reflexivity.
Qed.

(** ** The adapters *)

Ltac run_adapter :=
  unfold try_except, bind, await_create, index0, ret, raise, emit.

Ltac on_reply client resp e :=
  match goal with
  | |- context [client ?n ?kw] => destruct (client n kw) as [resp|e]
  end.

(** An adapter whose client is present places exactly one network call,
    built from its arguments, and returns when the provider answers it. *)
Lemma adapter_call f self messages model t mt kwargs h :
  registered self f = true ->
  exists c,
    call_family c = f /\ call_model c = model /\
    call_temperature c = t /\ call_max_tokens c = mt /\
    (exists o rest,
        adapter f self messages model t mt kwargs h = (o, h ++ Net c :: rest)) /\
    (answers self (net_calls h) c = true ->
     exists r,
       adapter f self messages model t mt kwargs h = (Returned r, h ++ [Net c]) /\
       res_model r = model /\ res_provider r = family_name f).
Proof.
  intros Hreg. destruct f; simpl in Hreg; unfold adapter.
  - unfold _generate_openai. destruct (openai_client self) as [client|] eqn:Hc;
      [|discriminate].
    exists (OpenAICall {| cc_model := model; cc_messages := messages;
                         cc_temperature := t; cc_max_tokens := mt;
                         cc_extra := kwargs |}).
    repeat split; try reflexivity.
    + run_adapter. on_reply client resp e;
        [destruct (choices resp)|];
        do 2 eexists; rewrite <- ?app_assoc; reflexivity.
    + simpl. rewrite Hc. run_adapter.
      on_reply client resp e; [|discriminate].
      destruct (choices resp); [discriminate|]. intros _. eauto.
  - unfold _generate_anthropic.
    destruct (anthropic_client self) as [client|] eqn:Hc; [|discriminate].
    destruct (convert_messages messages) as [sys turns].
    exists (AnthropicCall {| mc_model := model; mc_max_tokens := mt;
                             mc_temperature := t; mc_system := sys;
                             mc_messages := turns; mc_extra := [] |}).
    repeat split; try reflexivity.
    + run_adapter. on_reply client resp e;
        [destruct (response_content resp)|];
        do 2 eexists; rewrite <- ?app_assoc; reflexivity.
    + simpl. rewrite Hc. run_adapter.
      on_reply client resp e; [|discriminate].
      destruct (response_content resp); [discriminate|]. intros _. eauto.
  - unfold _generate_groq. destruct (groq_client self) as [client|] eqn:Hc;
      [|discriminate].
    exists (GroqCall {| cc_model := model; cc_messages := messages;
                         cc_temperature := t; cc_max_tokens := mt;
                         cc_extra := kwargs |}).
    repeat split; try reflexivity.
    + run_adapter. on_reply client resp e;
        [destruct (choices resp)|];
        do 2 eexists; rewrite <- ?app_assoc; reflexivity.
    + simpl. rewrite Hc. run_adapter.
      on_reply client resp e; [|discriminate].
      destruct (choices resp); [discriminate|]. intros _. eauto.
Qed.

(** An adapter that returns has a client, has placed one network call as
    its last event, and reports its own family and the model it sent. *)
Lemma adapter_returned f self messages model t mt kwargs h r h' :
  adapter f self messages model t mt kwargs h = (Returned r, h') ->
  registered self f = true /\
  res_provider r = family_name f /\ res_model r = model /\
  exists c, h' = h ++ [Net c] /\ call_family c = f /\ call_model c = model.
Proof.
  destruct f; unfold adapter.
  - unfold _generate_openai. destruct (openai_client self) as [client|] eqn:Hc;
      [|discriminate].
    run_adapter. on_reply client resp e; [|discriminate].
    destruct (choices resp); [discriminate|].
    intros H; inversion H; subst; clear H. simpl. rewrite Hc.
    repeat split. eexists (OpenAICall _). repeat split.
  - unfold _generate_anthropic.
    destruct (anthropic_client self) as [client|] eqn:Hc; [|discriminate].
    destruct (convert_messages messages) as [sys turns].
    run_adapter. on_reply client resp e; [|discriminate].
    destruct (response_content resp); [discriminate|].
    intros H; inversion H; subst; clear H. simpl. rewrite Hc.
    repeat split. eexists (AnthropicCall _). repeat split.
  - unfold _generate_groq. destruct (groq_client self) as [client|] eqn:Hc;
      [|discriminate].
    run_adapter. on_reply client resp e; [|discriminate].
    destruct (choices resp); [discriminate|].
    intros H; inversion H; subst; clear H. simpl. rewrite Hc.
    repeat split. eexists (GroqCall _). repeat split.
Qed.

(** ** The router *)

(** Two prefixes of one string are comparable. *)
Lemma prefix_comparable s :
  forall p q,
    String.prefix p s = true -> String.prefix q s = true ->
    String.prefix p q = true \/ String.prefix q p = true.
Proof.
  induction s as [|c s IH]; intros [|a p] [|b q] Hp Hq; simpl in *;
    auto; try discriminate.
  destruct (Ascii.ascii_dec a c) as [->|]; [|discriminate].
  destruct (Ascii.ascii_dec b c) as [->|]; [|discriminate].
  destruct (Ascii.ascii_dec c c) as [_|N]; [|now elim N].
  now apply IH.
Qed.

(** The six prefixes the router tests exclude one another. *)
Lemma prefix_classes model :
  let tests := (startswith model "gpt", startswith model "o1",
                startswith model "claude", startswith model "llama",
                startswith model "mixtral", startswith model "gemma") in
  tests = (true, false, false, false, false, false) \/
  tests = (false, true, false, false, false, false) \/
  tests = (false, false, true, false, false, false) \/
  tests = (false, false, false, true, false, false) \/
  tests = (false, false, false, false, true, false) \/
  tests = (false, false, false, false, false, true) \/
  tests = (false, false, false, false, false, false).
Proof.
  unfold startswith. cbv zeta.
  destruct (String.prefix "gpt" model) eqn:H1,
           (String.prefix "o1" model) eqn:H2,
           (String.prefix "claude" model) eqn:H3,
           (String.prefix "llama" model) eqn:H4,
           (String.prefix "mixtral" model) eqn:H5,
           (String.prefix "gemma" model) eqn:H6;
    first
      [ solve [repeat (try (left; reflexivity); right); reflexivity]
      | exfalso;
        match goal with
        | Ha : String.prefix ?p model = true,
          Hb : String.prefix ?q model = true |- _ =>
            destruct (prefix_comparable _ _ _ Ha Hb) as [X|X];
            cbv in X; discriminate X
        end ].
Qed.

Ltac split_prefixes model :=
  let H := fresh "Hp" in
  pose proof (prefix_classes model) as H; cbv zeta in H;
  repeat destruct H as [H|H];
    injection H as -> -> -> -> -> ->.

Ltac split_clients self :=
  destruct (openai_client self), (anthropic_client self), (groq_client self).

(** A model whose own family is registered is handed to that family's
    adapter as it is. *)
Lemma body_native self cfg messages model t mt kwargs f :
  inferred_family model = Some f ->
  registered self f = true ->
  generate_completion_body self cfg messages model t mt kwargs =
  try_except (adapter f self messages model t mt kwargs)
    (fun e => emit (LogError "LLM generation error" e) ;; raise e).
Proof.
  unfold generate_completion_body, inferred_family, registered.
  split_prefixes model; cbn [orb andb]; intros Hf; inversion Hf; subst f;
    split_clients self; cbn [truthy andb]; intros Hr;
    try discriminate Hr; reflexivity.
Qed.

(** Otherwise the first registered family in the order Groq, OpenAI,
    Anthropic is used, with that family's configured default model. *)
Lemma body_fallback self cfg messages model t mt kwargs f :
  native_registered self model = false ->
  first_available self = Some f ->
  generate_completion_body self cfg messages model t mt kwargs =
  try_except
    (emit (fallback_notice model) ;;
     adapter f self messages (default_model cfg f) t mt kwargs)
    (fun e => emit (LogError "LLM generation error" e) ;; raise e).
Proof.
  unfold generate_completion_body, native_registered, inferred_family,
    first_available, fallback_order, registered, fallback_notice.
  split_prefixes model; cbn [orb andb];
    split_clients self; cbn [truthy andb find];
    intros Hn Hf; try discriminate Hn; inversion Hf; subst f; reflexivity.
Qed.

Lemma body_no_provider self cfg messages model t mt kwargs :
  first_available self = None ->
  generate_completion_body self cfg messages model t mt kwargs =
  try_except
    (emit (fallback_notice model) ;;
     raise (ValueError "No LLM providers initialized. Please check your API keys."))
    (fun e => emit (LogError "LLM generation error" e) ;; raise e).
Proof.
  unfold generate_completion_body, first_available, fallback_order, registered,
    fallback_notice.
  split_clients self; cbn [truthy andb find]; intros Hf; try discriminate Hf.
  rewrite !andb_false_r. reflexivity.
Qed.

(** The three ways the router can go. *)
Lemma body_cases self cfg messages model t mt kwargs :
  (exists f, registered self f = true /\
     generate_completion_body self cfg messages model t mt kwargs =
     try_except (adapter f self messages model t mt kwargs)
       (fun e => emit (LogError "LLM generation error" e) ;; raise e)) \/
  (exists f, registered self f = true /\
     generate_completion_body self cfg messages model t mt kwargs =
     try_except
       (emit (fallback_notice model) ;;
        adapter f self messages (default_model cfg f) t mt kwargs)
       (fun e => emit (LogError "LLM generation error" e) ;; raise e)) \/
  generate_completion_body self cfg messages model t mt kwargs =
  try_except
    (emit (fallback_notice model) ;;
     raise (ValueError "No LLM providers initialized. Please check your API keys."))
    (fun e => emit (LogError "LLM generation error" e) ;; raise e).
Proof.
  destruct (native_registered self model) eqn:Hn.
  - left. unfold native_registered in Hn.
    destruct (inferred_family model) as [f|] eqn:Hf; [|discriminate].
    exists f. split; [exact Hn|]. now apply body_native.
  - destruct (first_available self) as [f|] eqn:Hf.
    + right; left. exists f. split.
      * unfold first_available in Hf. apply find_some in Hf. tauto.
      * now apply body_fallback.
    + right; right. now apply body_no_provider.
Qed.

(** A body that returns was served by a registered family, whose call is
    the last event of the history. *)
Lemma body_returned self cfg messages model t mt kwargs h r h' :
  generate_completion_body self cfg messages model t mt kwargs h = (Returned r, h') ->
  exists f c before,
    registered self f = true /\ res_provider r = family_name f /\
    h' = before ++ [Net c] /\ call_family c = f /\ call_model c = res_model r.
Proof.
  intros H.
  destruct (body_cases self cfg messages model t mt kwargs)
    as [(f & Hr & E)|[(f & Hr & E)|E]]; rewrite E in H; clear E;
    unfold try_except in H.
  - destruct (adapter f self messages model t mt kwargs h) as [[x|e] h1] eqn:Ha;
      [|discriminate H].
    inversion H; subst; clear H.
    apply adapter_returned in Ha. destruct Ha as (_ & Hp & Hm & c & -> & Hf & Hc).
    exists f, c, h. rewrite Hm. auto.
  - unfold bind at 1, emit at 1 in H.
    destruct (adapter f self messages (default_model cfg f) t mt kwargs
                (h ++ [fallback_notice model])) as [[x|e] h1] eqn:Ha;
      [|discriminate H].
    inversion H; subst; clear H.
    apply adapter_returned in Ha. destruct Ha as (_ & Hp & Hm & c & -> & Hf & Hc).
    exists f, c, (h ++ [fallback_notice model]). rewrite Hm. auto.
  - discriminate H.
Qed.

Lemma net_calls_log h ev : is_net ev = false -> net_calls (h ++ [ev]) = net_calls h.
Proof.
  intros H. unfold net_calls. rewrite filter_app. simpl. rewrite H.
  now rewrite app_nil_r.
Qed.

Lemma is_available_family self f :
  is_available self (family_name f) = registered self f.
Proof. destruct f; reflexivity. Qed.

(** The outcome of the body once the chosen adapter's outcome is known. *)
Lemma routed_outcome (m : M CompletionResult) h c :
  (exists o rest, m h = (o, h ++ Net c :: rest)) ->
  exists o rest,
    try_except m (fun e => emit (LogError "LLM generation error" e) ;; raise e) h
    = (o, h ++ Net c :: rest).
Proof.
  intros (o & rest & E). unfold try_except. rewrite E. destruct o as [r|e].
  - eauto.
  - rewrite log_and_raise. rewrite <- app_assoc. simpl. eauto.
Qed.

(** ** Routing, fallback and the fields of the result *)

(** C1. Whenever [generate_completion] returns a result (for any message
    list, in particular a non-empty one), the [provider] field names a
    family whose client is registered, and [provider] and [model] are
    the family and the model identifier of the network call that
    produced the result, the last event of the history. *)
Theorem result_names_invoked_provider self cfg messages model t mt kwargs h r h' :
  generate_completion self cfg messages model t mt kwargs h = (Returned r, h') ->
  is_available self (res_provider r) = true /\
  exists c before,
    h' = before ++ [Net c] /\
    res_provider r = family_name (call_family c) /\
    res_model r = call_model c.
Proof.
  intros H. unfold generate_completion, retry in H.
  apply attempts_from_returned in H. destruct H as (h0 & H).
  apply body_returned in H.
  destruct H as (f & c & before & Hreg & Hp & -> & Hf & Hm).
  split.
  - rewrite Hp, is_available_family. exact Hreg.
  - exists c, before. rewrite Hf. auto.
Qed.


(** C3. When the family the requested model names by its prefix is
    registered, the router calls that family with the identifier as it
    is, without a fallback notice, and when the provider answers the
    call the result's [model] is the requested identifier. *)
Theorem native_route_keeps_model self cfg messages model t mt kwargs h f :
  inferred_family model = Some f ->
  registered self f = true ->
  exists c,
    call_family c = f /\ call_model c = model /\
    (exists o rest,
       generate_completion_body self cfg messages model t mt kwargs h
       = (o, h ++ Net c :: rest)) /\
    (answers self (net_calls h) c = true ->
     exists r,
       generate_completion self cfg messages model t mt kwargs h
       = (Returned r, h ++ [Net c]) /\
       res_model r = model /\ res_provider r = family_name f).
Proof.
  intros Hf Hreg.
  destruct (adapter_call f self messages model t mt kwargs h Hreg)
    as (c & Hcf & Hcm & _ & _ & Hrun & Hok).
  exists c. repeat split; auto.
  - rewrite (body_native _ _ _ _ _ _ _ f Hf Hreg). now apply routed_outcome.
  - intros Ha. destruct (Hok Ha) as (r & E & Hm & Hp).
    exists r. repeat split; auto.
    apply retry_first_attempt.
    rewrite (body_native _ _ _ _ _ _ _ f Hf Hreg).
    now apply try_except_returned.
Qed.

(** ** Retry exhaustion *)

(** Three failed attempts end the loop with tenacity's wrapper. *)
Lemma three_failures self cfg messages model t mt kwargs h e1 h1 e2 h2 e3 h3 :
  generate_completion_body self cfg messages model t mt kwargs h
    = (Raised e1, h1) ->
  generate_completion_body self cfg messages model t mt kwargs (h1 ++ [Sleep 4])
    = (Raised e2, h2) ->
  generate_completion_body self cfg messages model t mt kwargs (h2 ++ [Sleep 4])
    = (Raised e3, h3) ->
  generate_completion self cfg messages model t mt kwargs h
    = (Raised (RetryError e3), h3).
Proof.
  intros E1 E2 E3. rewrite generate_completion_unfold. cbv zeta.
  now rewrite E1, E2, E3.
Qed.

(** Had the decorator set [reraise], the third failure itself would
    reach the caller. *)
Lemma three_failures_reraised {A} (fn : M A) wait h e1 h1 e2 h2 e3 h3 :
  fn h = (Raised e1, h1) ->
  fn (h1 ++ [Sleep (wait 1%nat)]) = (Raised e2, h2) ->
  fn (h2 ++ [Sleep (wait 2%nat)]) = (Raised e3, h3) ->
  retry 3 wait true fn h = (Raised e3, h3) /\
  retry 3 wait false fn h = (Raised (RetryError e3), h3).
Proof.
  intros E1 E2 E3. unfold retry. cbn [Nat.sub attempts_from].
  unfold try_except, bind, emit, raise. now rewrite E1, E2, E3.
Qed.

(** C4, as amended.  When all three attempts fail, the caller receives a
    [RetryError] that wraps the failure of the third attempt; that
    failure is inside it unchanged, no result is returned, and the
    history is the one the third attempt left (no further attempt). *)
Theorem retry_exhaustion_raises_RetryError
    self cfg messages model t mt kwargs h e1 h1 e2 h2 e3 h3 :
  generate_completion_body self cfg messages model t mt kwargs h
    = (Raised e1, h1) ->
  generate_completion_body self cfg messages model t mt kwargs (h1 ++ [Sleep 4])
    = (Raised e2, h2) ->
  generate_completion_body self cfg messages model t mt kwargs (h2 ++ [Sleep 4])
    = (Raised e3, h3) ->
  generate_completion self cfg messages model t mt kwargs h
    = (Raised (RetryError e3), h3) /\
  (forall r h', generate_completion self cfg messages model t mt kwargs h
                <> (Returned r, h')).
Proof.
  intros E1 E2 E3.
  rewrite (three_failures _ _ _ _ _ _ _ _ _ _ _ _ _ _ E1 E2 E3).
  split; [reflexivity|discriminate].
Qed.

(** Every failure of the decorated coroutine is a [RetryError]. *)
Lemma generate_completion_raises_only_RetryError
    self cfg messages model t mt kwargs h x h' :
  generate_completion self cfg messages model t mt kwargs h = (Raised x, h') ->
  exists e h0,
    x = RetryError e /\
    generate_completion_body self cfg messages model t mt kwargs h0 = (Raised e, h').
Proof.
  rewrite generate_completion_unfold. cbv zeta.
  destruct (generate_completion_body _ _ _ _ _ _ _ h) as [[r|e1] h1];
    [discriminate|].
  destruct (generate_completion_body _ _ _ _ _ _ _ (h1 ++ [Sleep 4]))
    as [[r|e2] h2]; [discriminate|].
  destruct (generate_completion_body _ _ _ _ _ _ _ (h2 ++ [Sleep 4]))
    as [[r|e3] h3] eqn:E3; [discriminate|].
  intros H; inversion H; subst. eauto.
Qed.

(** C4, as stated, fails: with an OpenAI client whose every call raises
    [APIError "rate limit"], each attempt raises that error, yet the
    caller does not receive it but a [RetryError] around it. *)
Lemma retry_exhaustion_translates_failure :
  (forall h,
     fst (generate_completion_body openai_down settings hello "gpt-4"
            half 2000 [] h) = Raised (APIError "rate limit")) /\
  fst (generate_completion openai_down settings hello "gpt-4" half 2000 [] [])
    = Raised (RetryError (APIError "rate limit")) /\
  fst (generate_completion openai_down settings hello "gpt-4" half 2000 [] [])
    <> Raised (APIError "rate limit").
Proof.
  split; [|split].
  - intros h. reflexivity.
  - reflexivity.
  - discriminate.
Qed.

(** C5, as amended.  With no client at all, every attempt logs the
    fallback notice and raises the configuration error [ValueError "No LLM providers
    initialized. Please check your API keys."] without a network call;
    the decorated call fails after its three attempts with that error as
    the failure of its last attempt, and its history holds notices, error
    logs and two pauses only: no network call is made. *)
Theorem no_provider_configuration_error self cfg messages model t mt kwargs h :
  openai_client self = None ->
  anthropic_client self = None ->
  groq_client self = None ->
  (forall h0,
     generate_completion_body self cfg messages model t mt kwargs h0
     = (Raised no_providers_error,
        h0 ++ [fallback_notice model;
               LogError "LLM generation error" no_providers_error])) /\
  (exists h',
     generate_completion self cfg messages model t mt kwargs h
       = (Raised (RetryError no_providers_error), h') /\
     h' = h ++ [fallback_notice model;
                LogError "LLM generation error" no_providers_error;
                Sleep 4;
                fallback_notice model;
                LogError "LLM generation error" no_providers_error;
                Sleep 4;
                fallback_notice model;
                LogError "LLM generation error" no_providers_error] /\
     net_calls h' = net_calls h).
Proof.
  intros Ho Ha Hg.
  assert (Hbody : forall h0,
     generate_completion_body self cfg messages model t mt kwargs h0
     = (Raised no_providers_error,
        h0 ++ [fallback_notice model;
               LogError "LLM generation error" no_providers_error])).
  { intros h0. rewrite body_no_provider.
    - unfold try_except, bind, emit, raise. now rewrite <- app_assoc.
    - unfold first_available, fallback_order, registered. simpl.
      now rewrite Ho, Ha, Hg. }
  split; [exact Hbody|].
  eexists. split; [|split].
  - eapply three_failures; apply Hbody.
  - now rewrite <- !app_assoc.
  - rewrite <- !app_assoc. unfold net_calls. rewrite filter_app. simpl.
    now rewrite app_nil_r.
Qed.

(** C5, as stated, fails in one respect: with no client the caller does
    not receive the configuration error itself but a [RetryError] around
    it. *)
Lemma no_provider_error_is_wrapped :
  fst (generate_completion no_provider settings hello "gpt-4" half 2000 [] [])
    = Raised (RetryError no_providers_error) /\
  fst (generate_completion no_provider settings hello "gpt-4" half 2000 [] [])
    <> Raised no_providers_error /\
  net_calls (snd (generate_completion no_provider settings hello "gpt-4" half
                    2000 [] [])) = 0%nat.
Proof.
  split; [reflexivity|]. split; [discriminate|reflexivity].
Qed.

(** ** Parameters of the outbound call *)

(** What every adapter forwards: model, temperature and token limit as
    given; the extra keyword arguments as given on the two chat
    families, none on Anthropic. *)
Lemma adapter_forwards f self messages model t mt kwargs h :
  registered self f = true ->
  exists c o rest,
    adapter f self messages model t mt kwargs h = (o, h ++ Net c :: rest) /\
    forallb (fun ev => negb (is_net ev)) rest = true /\
    call_family c = f /\ call_model c = model /\
    call_temperature c = t /\ call_max_tokens c = mt /\
    call_extra c = match f with Anthropic => [] | _ => kwargs end.
Proof.
  intros Hreg. destruct f; simpl in Hreg; unfold adapter.
  - unfold _generate_openai. destruct (openai_client self) as [client|];
      [|discriminate].
    run_adapter. on_reply client resp e; [destruct (choices resp)|];
      do 3 eexists; rewrite <- ?app_assoc; (split; [reflexivity|]);
      repeat split.
  - unfold _generate_anthropic. destruct (anthropic_client self) as [client|];
      [|discriminate].
    destruct (convert_messages messages) as [sys turns].
    run_adapter. on_reply client resp e; [destruct (response_content resp)|];
      do 3 eexists; rewrite <- ?app_assoc; (split; [reflexivity|]);
      repeat split.
  - unfold _generate_groq. destruct (groq_client self) as [client|];
      [|discriminate].
    run_adapter. on_reply client resp e; [destruct (choices resp)|];
      do 3 eexists; rewrite <- ?app_assoc; (split; [reflexivity|]);
      repeat split.
Qed.

(** C6 fails on the Anthropic path: a completion routed to Anthropic with
    the extra parameter [top_p] returns, and the one network call it
    made carries the caller's temperature and token limit but no extra
    parameter at all. *)
Theorem anthropic_adapter_drops_extra :
  exists r kw,
    generate_completion only_anthropic settings hello "claude-3-sonnet-20240229"
      half 2000 [("top_p", PyFloat half)] []
    = (Returned r, [Net (AnthropicCall kw)]) /\
    mc_temperature kw = half /\ mc_max_tokens kw = 2000 /\
    mc_extra kw = [] /\
    mc_extra kw <> [("top_p", PyFloat half)].
Proof.
  do 2 eexists. split; [reflexivity|]. repeat split. discriminate.
Qed.

(** ** Message translation for Anthropic *)

Lemma convert_fold messages :
  forall system_message anthropic_messages,
    fold_left convert_step messages (system_message, anthropic_messages) =
    (match last_system messages with
     | Some s => Some s
     | None => system_message
     end,
     anthropic_messages ++ non_system messages).
Proof.
  induction messages as [|msg rest IH]; intros sys turns; simpl.
  - now rewrite app_nil_r.
  - unfold non_system. simpl. fold (non_system rest).
    unfold is_system. destruct msg as [ro co]; simpl.
    destruct (String.eqb ro "system"); simpl; rewrite IH.
    + now destruct (last_system rest).
    + rewrite <- app_assoc. now destruct (last_system rest).
Qed.

Lemma convert_messages_spec messages :
  convert_messages messages = (last_system messages, non_system messages).
Proof.
  unfold convert_messages. rewrite convert_fold. simpl.
  now destruct (last_system messages).
Qed.

(** The Anthropic adapter never fails in translating the messages: with a
    client present it always reaches the network call, whose system field
    and turn list are those of [convert_messages]. *)
Lemma anthropic_call self messages model t mt kwargs h :
  registered self Anthropic = true ->
  exists kw,
    mc_system kw = last_system messages /\
    mc_messages kw = non_system messages /\
    (exists o rest,
       _generate_anthropic self messages model t mt kwargs h
       = (o, h ++ Net (AnthropicCall kw) :: rest)) /\
    (answers self (net_calls h) (AnthropicCall kw) = true ->
     exists r,
       _generate_anthropic self messages model t mt kwargs h
       = (Returned r, h ++ [Net (AnthropicCall kw)])).
Proof.
  simpl. intros Hreg. unfold _generate_anthropic.
  destruct (anthropic_client self) as [client|] eqn:Hc; [|discriminate].
  rewrite convert_messages_spec.
  exists {| mc_model := model; mc_max_tokens := mt; mc_temperature := t;
            mc_system := last_system messages;
            mc_messages := non_system messages; mc_extra := [] |}.
  repeat split.
  - run_adapter. on_reply client resp e; [destruct (response_content resp)|];
      do 2 eexists; rewrite <- ?app_assoc; reflexivity.
  - simpl. rewrite ?Hc. run_adapter.
    on_reply client resp e; [|discriminate].
    destruct (response_content resp); [discriminate|]. intros _. eauto.
Qed.

(** C7, as amended.  Whatever the number of system-role messages, the
    Anthropic adapter sends the content of the last of them as the
    top-level system field and a turn list made of the messages of the
    other roles, in their original order; no system-role message is in
    the turn list.  The translation does not fail: the call is placed,
    and the adapter returns when the provider answers it. *)
Theorem anthropic_honours_last_system self messages model t mt kwargs h :
  registered self Anthropic = true ->
  exists kw,
    mc_system kw = last_system messages /\
    mc_messages kw = non_system messages /\
    Forall (fun msg => role msg <> "system") (mc_messages kw) /\
    (exists o rest,
       _generate_anthropic self messages model t mt kwargs h
       = (o, h ++ Net (AnthropicCall kw) :: rest)) /\
    (answers self (net_calls h) (AnthropicCall kw) = true ->
     exists r,
       _generate_anthropic self messages model t mt kwargs h
       = (Returned r, h ++ [Net (AnthropicCall kw)])).
Proof.
  intros Hreg.
  destruct (anthropic_call self messages model t mt kwargs h Hreg)
    as (kw & Hs & Hm & Hrun & Hok).
  exists kw. repeat split; auto.
  rewrite Hm. unfold non_system. apply Forall_forall. intros msg Hin.
  apply filter_In in Hin. destruct Hin as [_ Hn]. unfold is_system in Hn.
  intros E. rewrite E in Hn. discriminate Hn.
Qed.

(** C7, as stated, fails: of two system-role messages ["S1"] and ["S2"]
    the adapter sends the second as the system field, and the second
    does not stay in the turn list as an ordinary turn. *)
Lemma first_system_is_not_the_one_honoured :
  exists r kw,
    _generate_anthropic only_anthropic two_systems "claude-3-sonnet-20240229"
      half 2000 [] []
    = (Returned r, [Net (AnthropicCall kw)]) /\
    mc_system kw = Some "S2" /\
    mc_system kw <> Some "S1" /\
    mc_messages kw = [ {| role := "user"; content := "U" |} ] /\
    mc_messages kw <> [ {| role := "user"; content := "U" |};
                        {| role := "system"; content := "S2" |} ].
Proof.
  do 2 eexists. split; [reflexivity|]. repeat split; discriminate.
Qed.

(** C8. For the conversation system ["S"], user ["U1"], assistant ["A1"],
    user ["U2"], the Anthropic adapter sends ["S"] as the system field
    and the three other messages, in that order, as the turn list. *)
Theorem single_system_message_extraction self model t mt kwargs h :
  registered self Anthropic = true ->
  exists kw,
    mc_system kw = Some "S" /\
    mc_messages kw = [ {| role := "user"; content := "U1" |};
                       {| role := "assistant"; content := "A1" |};
                       {| role := "user"; content := "U2" |} ] /\
    (exists o rest,
       _generate_anthropic self one_system model t mt kwargs h
       = (o, h ++ Net (AnthropicCall kw) :: rest)) /\
    (answers self (net_calls h) (AnthropicCall kw) = true ->
     exists r,
       _generate_anthropic self one_system model t mt kwargs h
       = (Returned r, h ++ [Net (AnthropicCall kw)])).
Proof.
  intros Hreg.
  destruct (anthropic_call self one_system model t mt kwargs h Hreg)
    as (kw & Hs & Hm & Hrun & Hok).
  exists kw. repeat split; auto.
Qed.

(** With a provider registered, each attempt of the router makes exactly
    one network call, to a registered family, with the caller's
    temperature and token limit, and with the caller's extra parameters
    unless the family is Anthropic. *)
Lemma router_forwards self cfg messages model t mt kwargs h f0 :
  first_available self = Some f0 ->
  exists c o before rest,
    generate_completion_body self cfg messages model t mt kwargs h
    = (o, before ++ Net c :: rest) /\
    (before = h \/ before = h ++ [fallback_notice model]) /\
    forallb (fun ev => negb (is_net ev)) rest = true /\
    registered self (call_family c) = true /\
    call_temperature c = t /\ call_max_tokens c = mt /\
    call_extra c = match call_family c with Anthropic => [] | _ => kwargs end.
Proof.
  intros Hfirst.
  assert (Hwrap : forall (m : M CompletionResult) h1 c o rest,
    m h1 = (o, h1 ++ Net c :: rest) ->
    forallb (fun ev => negb (is_net ev)) rest = true ->
    exists o' rest',
      try_except m (fun e => emit (LogError "LLM generation error" e) ;; raise e) h1
      = (o', h1 ++ Net c :: rest') /\
      forallb (fun ev => negb (is_net ev)) rest' = true).
  { intros m h1 c o rest E Hrest. unfold try_except. rewrite E.
    destruct o as [r|e].
    - eauto.
    - rewrite log_and_raise. exists (Raised e), (rest ++ [LogError "LLM generation error" e]).
      split; [now rewrite <- app_assoc|].
      rewrite forallb_app, Hrest. reflexivity. }
  destruct (native_registered self model) eqn:Hn.
  - unfold native_registered in Hn.
    destruct (inferred_family model) as [f|] eqn:Hf; [|discriminate].
    destruct (adapter_forwards f self messages model t mt kwargs h Hn)
      as (c & o & rest & E & Hrest & Hcf & _ & Ht & Hmt & Hx).
    destruct (Hwrap _ _ _ _ _ E Hrest) as (o' & rest' & E' & Hrest').
    exists c, o', h, rest'. rewrite (body_native _ _ _ _ _ _ _ f Hf Hn), Hcf.
    repeat split; auto.
  - assert (Hreg : registered self f0 = true).
    { unfold first_available in Hfirst. apply find_some in Hfirst. tauto. }
    destruct (adapter_forwards f0 self messages (default_model cfg f0) t mt kwargs
                (h ++ [fallback_notice model]) Hreg)
      as (c & o & rest & E & Hrest & Hcf & _ & Ht & Hmt & Hx).
    assert (E2 : (emit (fallback_notice model) ;;
                  adapter f0 self messages (default_model cfg f0) t mt kwargs) h
                 = (o, (h ++ [fallback_notice model]) ++ Net c :: rest)).
    { unfold bind, emit. now rewrite E. }
    rewrite (body_fallback _ _ _ _ _ _ _ f0 Hn Hfirst).
    unfold try_except. rewrite E2. destruct o as [r|e].
    + exists c, (Returned r), (h ++ [fallback_notice model]), rest.
      rewrite Hcf. repeat split; auto.
    + rewrite log_and_raise.
      exists c, (Raised e), (h ++ [fallback_notice model]),
        (rest ++ [LogError "LLM generation error" e]).
      rewrite Hcf, forallb_app, Hrest. repeat split; auto.
      now rewrite <- !app_assoc.
Qed.

(** ** Token accounting *)

(** C9. A result of the Anthropic adapter carries as [tokens] the exact
    sum of the input and output counts the provider reported; a result
    of the OpenAI or of the Groq adapter carries the provider's combined
    total as it is.  Each adapter does return such a result whenever its
    client answers the call it records with a response that has a first
    choice (content block).  In particular reported counts of 120 and 80
    make the Anthropic adapter return 200. *)
Theorem tokens_are_the_canonical_total self messages model t mt kwargs h :
  (forall r h',
     _generate_anthropic self messages model t mt kwargs h = (Returned r, h') ->
     exists client kw response,
       anthropic_client self = Some client /\
       h' = h ++ [Net (AnthropicCall kw)] /\
       client (net_calls h) kw = Returned response /\
       res_tokens r = input_tokens (response_usage response)
                      + output_tokens (response_usage response)) /\
  (forall r h',
     _generate_openai self messages model t mt kwargs h = (Returned r, h') ->
     exists client kw response,
       openai_client self = Some client /\
       h' = h ++ [Net (OpenAICall kw)] /\
       client (net_calls h) kw = Returned response /\
       res_tokens r = total_tokens (usage response)) /\
  (forall r h',
     _generate_groq self messages model t mt kwargs h = (Returned r, h') ->
     exists client kw response,
       groq_client self = Some client /\
       h' = h ++ [Net (GroqCall kw)] /\
       client (net_calls h) kw = Returned response /\
       res_tokens r = total_tokens (usage response)) /\
  (forall client response first rest,
     anthropic_client self = Some client ->
     (forall n kw, client n kw = Returned response) ->
     response_content response = first :: rest ->
     input_tokens (response_usage response) = 120 ->
     output_tokens (response_usage response) = 80 ->
     exists r h',
       _generate_anthropic self messages model t mt kwargs h = (Returned r, h') /\
       res_tokens r = 200) /\
  (forall client response first rest,
     openai_client self = Some client ->
     client (net_calls h) (chat_kw messages model t mt kwargs) = Returned response ->
     choices response = first :: rest ->
     exists r,
       _generate_openai self messages model t mt kwargs h
       = (Returned r, h ++ [Net (OpenAICall (chat_kw messages model t mt kwargs))]) /\
       res_tokens r = total_tokens (usage response)) /\
  (forall client response first rest,
     groq_client self = Some client ->
     client (net_calls h) (chat_kw messages model t mt kwargs) = Returned response ->
     choices response = first :: rest ->
     exists r,
       _generate_groq self messages model t mt kwargs h
       = (Returned r, h ++ [Net (GroqCall (chat_kw messages model t mt kwargs))]) /\
       res_tokens r = total_tokens (usage response)) /\
  (forall client response first rest,
     anthropic_client self = Some client ->
     client (net_calls h) (anthropic_kw messages model t mt) = Returned response ->
     response_content response = first :: rest ->
     exists r,
       _generate_anthropic self messages model t mt kwargs h
       = (Returned r, h ++ [Net (AnthropicCall (anthropic_kw messages model t mt))]) /\
       res_tokens r = input_tokens (response_usage response)
                      + output_tokens (response_usage response)).
Proof.
  split; [|split; [|split; [|split; [|split; [|split]]]]].
  - intros r h'. unfold _generate_anthropic.
    destruct (anthropic_client self) as [client|]; [|discriminate].
    destruct (convert_messages messages) as [sys turns].
    run_adapter.
    match goal with
    | |- context [client ?n ?kw] => destruct (client n kw) as [resp|e] eqn:E
    end; [|discriminate].
    destruct (response_content resp); [discriminate|].
    intros H; inversion H; subst; clear H. simpl. eauto 8.
  - intros r h'. unfold _generate_openai.
    destruct (openai_client self) as [client|]; [|discriminate].
    run_adapter.
    match goal with
    | |- context [client ?n ?kw] => destruct (client n kw) as [resp|e] eqn:E
    end; [|discriminate].
    destruct (choices resp); [discriminate|].
    intros H; inversion H; subst; clear H. simpl. eauto 8.
  - intros r h'. unfold _generate_groq.
    destruct (groq_client self) as [client|]; [|discriminate].
    run_adapter.
    match goal with
    | |- context [client ?n ?kw] => destruct (client n kw) as [resp|e] eqn:E
    end; [|discriminate].
    destruct (choices resp); [discriminate|].
    intros H; inversion H; subst; clear H. simpl. eauto 8.
  - intros client response first rest Hc Hans Hfirst Hin Hout.
    unfold _generate_anthropic. rewrite Hc.
    destruct (convert_messages messages) as [sys turns].
    run_adapter. rewrite Hans, Hfirst. do 2 eexists. split; [reflexivity|].
    simpl. rewrite Hin, Hout. reflexivity.
  - intros client response first rest Hc Hans Hfirst.
    unfold _generate_openai. rewrite Hc. run_adapter.
    fold (chat_kw messages model t mt kwargs). rewrite Hans, Hfirst.
    eexists. split; reflexivity.
  - intros client response first rest Hc Hans Hfirst.
    unfold _generate_groq. rewrite Hc. run_adapter.
    fold (chat_kw messages model t mt kwargs). rewrite Hans, Hfirst.
    eexists. split; reflexivity.
  - intros client response first rest Hc Hans Hfirst.
    unfold _generate_anthropic. rewrite Hc. revert Hans. unfold anthropic_kw.
    destruct (convert_messages messages) as [sys turns]. cbn [fst snd].
    intros Hans. run_adapter. rewrite Hans, Hfirst.
    eexists. split; reflexivity.
Qed.

(** ** Availability *)

(** C10. [is_available] is a total function of the manager and the
    provider name with a boolean value: it reads the three client
    attributes, changes nothing and does not raise.  It is [False] for
    every name other than the three known ones, and for each of those it
    is [True] exactly when that family's client is not [None]. *)
Theorem is_available_spec self provider :
  (provider <> "openai" -> provider <> "anthropic" -> provider <> "groq" ->
   is_available self provider = false) /\
  (is_available self "openai" = true <-> openai_client self <> None) /\
  (is_available self "anthropic" = true <-> anthropic_client self <> None) /\
  (is_available self "groq" = true <-> groq_client self <> None).
Proof.
  split; [|repeat split].
  - intros Ho Ha Hg. unfold is_available.
    apply String.eqb_neq in Ho, Ha, Hg. now rewrite Ho, Ha, Hg.
  - unfold is_available; simpl. now destruct (openai_client self).
  - unfold is_available; simpl. destruct (openai_client self); [reflexivity|intros H; now elim H].
  - unfold is_available; simpl. now destruct (anthropic_client self).
  - unfold is_available; simpl. destruct (anthropic_client self); [reflexivity|intros H; now elim H].
  - unfold is_available; simpl. now destruct (groq_client self).
  - unfold is_available; simpl. destruct (groq_client self); [reflexivity|intros H; now elim H].
Qed.

(** ** The properties at concrete inputs *)

(** A request for ["gpt-4"] served by a manager that holds only a Groq
    client: the result names Groq and the model Groq was called with. *)
Lemma result_names_invoked_provider_groq :
  generate_completion only_groq settings hello "gpt-4" half 2000 [] []
  = (Returned {| res_content := "ok"; res_tokens := 12;
                 res_finish_reason := "stop";
                 res_model := "llama-3.3-70b-versatile";
                 res_provider := "groq" |},
     [fallback_notice "gpt-4";
      Net (GroqCall {| cc_model := "llama-3.3-70b-versatile";
                       cc_messages := hello; cc_temperature := half;
                       cc_max_tokens := 2000; cc_extra := [] |})]) /\
  is_available only_groq "groq" = true /\
  exists c before,
    [fallback_notice "gpt-4";
     Net (GroqCall {| cc_model := "llama-3.3-70b-versatile";
                      cc_messages := hello; cc_temperature := half;
                      cc_max_tokens := 2000; cc_extra := [] |})]
    = before ++ [Net c] /\
    "groq" = family_name (call_family c) /\
    "llama-3.3-70b-versatile" = call_model c.
Proof.
  split; [reflexivity|].
  exact (result_names_invoked_provider only_groq settings hello "gpt-4"
           half 2000 [] [] _ _ eq_refl).
Defined.


(** ["gpt-4"] with OpenAI registered goes to OpenAI unchanged. *)
Lemma native_route_keeps_model_openai :
  inferred_family "gpt-4" = Some OpenAI /\
  registered only_openai OpenAI = true /\
  exists r h',
    generate_completion only_openai settings hello "gpt-4" half 2000 [] []
    = (Returned r, h') /\
    res_model r = "gpt-4" /\ res_provider r = "openai".
Proof.
  repeat split.
  destruct (native_route_keeps_model only_openai settings hello "gpt-4"
              half 2000 [] [] OpenAI eq_refl eq_refl)
    as (c & Hcf & Hcm & (o & rest & Hrun) & Hok).
  cbv in Hrun. inversion Hrun; subst; clear Hrun.
  destruct (Hok eq_refl) as (r & E & Hm & Hp).
  exists r. eexists. split; [exact E|]. auto.
Defined.

(** Three failures of a client that is down end in a [RetryError]. *)
Lemma retry_exhaustion_raises_RetryError_down :
  exists h3,
    generate_completion openai_down settings hello "gpt-4" half 2000 [] []
    = (Raised (RetryError (APIError "rate limit")), h3) /\
    net_calls h3 = 3%nat.
Proof.
  eexists. split.
  - refine (proj1 (retry_exhaustion_raises_RetryError openai_down settings hello
             "gpt-4" half 2000 [] []
             (APIError "rate limit") _ (APIError "rate limit") _
             (APIError "rate limit") _ eq_refl eq_refl eq_refl)).
  - reflexivity.
Defined.

(** No client at all: the configuration error, and no network call. *)
Lemma no_provider_configuration_error_empty :
  exists h',
    generate_completion no_provider settings hello "gpt-4" half 2000 [] []
    = (Raised (RetryError no_providers_error), h') /\
    net_calls h' = 0%nat.
Proof.
  destruct (no_provider_configuration_error no_provider settings hello "gpt-4"
              half 2000 [] [] eq_refl eq_refl eq_refl)
    as [_ (h' & E & _ & Hn)].
  exists h'. split; [exact E|exact Hn].
Defined.

(** Two system-role messages: the last one is the system field. *)
Lemma anthropic_honours_last_system_two :
  registered only_anthropic Anthropic = true /\
  exists kw,
    mc_system kw = Some "S2" /\
    mc_messages kw = [ {| role := "user"; content := "U" |} ] /\
    exists r,
      _generate_anthropic only_anthropic two_systems "claude-3-sonnet-20240229"
        half 2000 [] []
      = (Returned r, [Net (AnthropicCall kw)]).
Proof.
  split; [reflexivity|].
  destruct (anthropic_honours_last_system only_anthropic two_systems
              "claude-3-sonnet-20240229" half 2000 [] [] eq_refl)
    as (kw & Hs & Hm & _ & _ & Hok).
  exists kw. repeat split; [exact Hs|exact Hm|].
  exact (Hok eq_refl).
Defined.

(** The extraction example on a manager with an Anthropic client. *)
Lemma single_system_message_extraction_anthropic :
  registered only_anthropic Anthropic = true /\
  exists kw,
    mc_system kw = Some "S" /\
    mc_messages kw = [ {| role := "user"; content := "U1" |};
                       {| role := "assistant"; content := "A1" |};
                       {| role := "user"; content := "U2" |} ] /\
    exists r,
      _generate_anthropic only_anthropic one_system "claude-3-sonnet-20240229"
        half 2000 [] []
      = (Returned r, [Net (AnthropicCall kw)]).
Proof.
  split; [reflexivity|].
  destruct (single_system_message_extraction only_anthropic
              "claude-3-sonnet-20240229" half 2000 [] [] eq_refl)
    as (kw & Hs & Hm & _ & Hok).
  exists kw. repeat split; [exact Hs|exact Hm|].
  exact (Hok eq_refl).
Defined.

(** Reported counts of 120 and 80 give 200 tokens on Anthropic; the
    combined total of 12 is returned as it is on OpenAI and on Groq. *)
Lemma tokens_are_the_canonical_total_200 :
  (exists r h',
     _generate_anthropic only_anthropic hello "claude-3-sonnet-20240229"
       half 2000 [] [] = (Returned r, h') /\
     res_tokens r = 200) /\
  (exists r h',
     _generate_openai only_openai hello "gpt-4" half 2000 [] []
     = (Returned r, h') /\
     res_tokens r = 12) /\
  (exists r h',
     _generate_groq only_groq hello "llama-3.3-70b-versatile" half 2000 [] []
     = (Returned r, h') /\
     res_tokens r = 12).
Proof.
  split; [|split].
  - destruct (tokens_are_the_canonical_total only_anthropic hello
                "claude-3-sonnet-20240229" half 2000 [] [])
      as (_ & _ & _ & H & _).
    exact (H messages_ok sample_message _ _ eq_refl (fun _ _ => eq_refl)
             eq_refl eq_refl eq_refl).
  - destruct (tokens_are_the_canonical_total only_openai hello "gpt-4" half
                2000 [] []) as (_ & _ & _ & _ & H & _).
    destruct (H chat_ok sample_completion _ _ eq_refl eq_refl eq_refl)
      as (r & E & Ht).
    exists r. eexists. split; [exact E|exact Ht].
  - destruct (tokens_are_the_canonical_total only_groq hello
                "llama-3.3-70b-versatile" half 2000 [] [])
      as (_ & _ & _ & _ & _ & H & _).
    destruct (H chat_ok sample_completion _ _ eq_refl eq_refl eq_refl)
      as (r & E & Ht).
    exists r. eexists. split; [exact E|exact Ht].
Defined.

(** * Further properties of the manager *)

(** ** The shape of one attempt *)

Lemma net_calls_app h1 h2 : net_calls (h1 ++ h2) = (net_calls h1 + net_calls h2)%nat.
Proof. unfold net_calls. now rewrite filter_app, length_app. Qed.

(** The call an adapter places depends on its arguments only, and the
    adapter ends in one of two ways. *)
Lemma adapter_plan f self messages model t mt kwargs :
  registered self f = true ->
  exists c,
    call_family c = f /\ call_model c = model /\
    call_temperature c = t /\ call_max_tokens c = mt /\
    forall h,
      (exists r,
          adapter f self messages model t mt kwargs h = (Returned r, h ++ [Net c]) /\
          answers self (net_calls h) c = true /\
          res_provider r = family_name f /\ res_model r = model) \/
      (exists e,
          adapter f self messages model t mt kwargs h
          = (Raised e, h ++ [Net c; LogError (adapter_log f) e]) /\
          answers self (net_calls h) c = false).
Proof.
  intros Hreg. destruct f; simpl in Hreg; unfold adapter.
  - unfold _generate_openai. destruct (openai_client self) as [client|] eqn:Hc;
      [|discriminate].
    exists (OpenAICall {| cc_model := model; cc_messages := messages;
                          cc_temperature := t; cc_max_tokens := mt;
                          cc_extra := kwargs |}).
    repeat split. intros h. simpl. rewrite Hc. run_adapter.
    on_reply client resp e; [destruct (choices resp)|].
    + right. eexists. rewrite <- app_assoc. split; reflexivity.
    + left. eexists. repeat split.
    + right. eexists. rewrite <- app_assoc. split; reflexivity.
  - unfold _generate_anthropic.
    destruct (anthropic_client self) as [client|] eqn:Hc; [|discriminate].
    destruct (convert_messages messages) as [sys turns].
    exists (AnthropicCall {| mc_model := model; mc_max_tokens := mt;
                             mc_temperature := t; mc_system := sys;
                             mc_messages := turns; mc_extra := [] |}).
    repeat split. intros h. simpl. rewrite Hc. run_adapter.
    on_reply client resp e; [destruct (response_content resp)|].
    + right. eexists. rewrite <- app_assoc. split; reflexivity.
    + left. eexists. repeat split.
    + right. eexists. rewrite <- app_assoc. split; reflexivity.
  - unfold _generate_groq. destruct (groq_client self) as [client|] eqn:Hc;
      [|discriminate].
    exists (GroqCall {| cc_model := model; cc_messages := messages;
                        cc_temperature := t; cc_max_tokens := mt;
                        cc_extra := kwargs |}).
    repeat split. intros h. simpl. rewrite Hc. run_adapter.
    on_reply client resp e; [destruct (choices resp)|].
    + right. eexists. rewrite <- app_assoc. split; reflexivity.
    + left. eexists. repeat split.
    + right. eexists. rewrite <- app_assoc. split; reflexivity.
Qed.

(** With a provider registered, an attempt of the router is: an optional
    fallback notice, one network call fixed by the arguments, and either
    a result or the failure logged twice. *)
Lemma attempt_plan self cfg messages model t mt kwargs f0 :
  first_available self = Some f0 ->
  exists c notice,
    (notice = [] \/ notice = [fallback_notice model]) /\
    registered self (call_family c) = true /\
    call_temperature c = t /\ call_max_tokens c = mt /\
    forall h,
      (exists r,
          generate_completion_body self cfg messages model t mt kwargs h
          = (Returned r, h ++ notice ++ [Net c]) /\
          answers self (net_calls h) c = true /\
          res_provider r = family_name (call_family c) /\
          res_model r = call_model c) \/
      (exists e,
          generate_completion_body self cfg messages model t mt kwargs h
          = (Raised e,
             h ++ notice ++ [Net c; LogError (adapter_log (call_family c)) e;
                             LogError "LLM generation error" e]) /\
          answers self (net_calls h) c = false).
Proof.
  intros Hfirst.
  destruct (native_registered self model) eqn:Hn.
  - unfold native_registered in Hn.
    destruct (inferred_family model) as [f|] eqn:Hf; [|discriminate].
    destruct (adapter_plan f self messages model t mt kwargs Hn)
      as (c & Hcf & Hcm & Ht & Hmt & Hrun).
    exists c, []. rewrite Hcf, Hcm. repeat split; auto.
    intros h. rewrite (body_native _ _ _ _ _ _ _ f Hf Hn). unfold try_except.
    destruct (Hrun h) as [(r & E & Ha & Hp & Hm)|(e & E & Ha)]; rewrite E.
    + left. exists r. auto.
    + right. exists e. unfold bind, emit, raise. rewrite <- app_assoc. auto.
  - assert (Hreg : registered self f0 = true).
    { unfold first_available in Hfirst. apply find_some in Hfirst. tauto. }
    destruct (adapter_plan f0 self messages (default_model cfg f0) t mt kwargs Hreg)
      as (c & Hcf & Hcm & Ht & Hmt & Hrun).
    exists c, [fallback_notice model]. rewrite Hcf, Hcm. repeat split; auto.
    intros h.
    destruct (Hrun (h ++ [fallback_notice model]))
      as [(r & E & Ha & Hp & Hm)|(e & E & Ha)];
      rewrite net_calls_log in Ha by reflexivity.
    + left. exists r. rewrite (body_fallback _ _ _ _ _ _ _ f0 Hn Hfirst).
      unfold try_except, bind at 1, emit at 1. rewrite E, <- app_assoc. auto.
    + right. exists e. rewrite (body_fallback _ _ _ _ _ _ _ f0 Hn Hfirst).
      unfold try_except, bind at 1, emit at 1. rewrite E.
      unfold bind, emit, raise. rewrite <- !app_assoc. auto.
Qed.

Lemma net_calls_failed_attempt h notice c e model :
  notice = [] \/ notice = [fallback_notice model] ->
  net_calls (h ++ failed_attempt notice c e ++ [Sleep 4]) = S (net_calls h).
Proof.
  intros [->| ->]; rewrite net_calls_app; unfold net_calls at 2; simpl; lia.
Qed.

(** ** The retry loop, attempt by attempt *)

(** With a provider registered, a completion is decided by the first of
    its three calls that the provider answers. *)
Lemma completion_attempts self cfg messages model t mt kwargs f0 :
  first_available self = Some f0 ->
  exists c notice,
    (notice = [] \/ notice = [fallback_notice model]) /\
    registered self (call_family c) = true /\
    call_temperature c = t /\ call_max_tokens c = mt /\
    forall h,
      (answers self (net_calls h) c = true /\
       exists r,
         generate_completion self cfg messages model t mt kwargs h
         = (Returned r, h ++ notice ++ [Net c]) /\
         res_provider r = family_name (call_family c) /\
         res_model r = call_model c) \/
      (answers self (net_calls h) c = false /\
       answers self (S (net_calls h)) c = true /\
       exists e1 r,
         generate_completion self cfg messages model t mt kwargs h
         = (Returned r,
            h ++ failed_attempt notice c e1 ++ Sleep 4 :: notice ++ [Net c]) /\
         res_provider r = family_name (call_family c) /\
         res_model r = call_model c) \/
      (answers self (net_calls h) c = false /\
       answers self (S (net_calls h)) c = false /\
       answers self (S (S (net_calls h))) c = true /\
       exists e1 e2 r,
         generate_completion self cfg messages model t mt kwargs h
         = (Returned r,
            h ++ failed_attempt notice c e1 ++ Sleep 4 ::
            failed_attempt notice c e2 ++ Sleep 4 :: notice ++ [Net c]) /\
         res_provider r = family_name (call_family c) /\
         res_model r = call_model c) \/
      (answers self (net_calls h) c = false /\
       answers self (S (net_calls h)) c = false /\
       answers self (S (S (net_calls h))) c = false /\
       exists e1 e2 e3,
         generate_completion self cfg messages model t mt kwargs h
         = (Raised (RetryError e3),
            h ++ failed_attempt notice c e1 ++ Sleep 4 ::
            failed_attempt notice c e2 ++ Sleep 4 ::
            failed_attempt notice c e3)).
Proof.
  intros Hfirst.
  destruct (attempt_plan self cfg messages model t mt kwargs f0 Hfirst)
    as (c & notice & Hnotice & Hreg & Ht & Hmt & Hplan).
  exists c, notice. repeat split; auto. intros h.
  rewrite generate_completion_unfold. cbv zeta.
  destruct (Hplan h) as [(r & E & Ha & Hp & Hm)|(e1 & E1 & Ha1)].
  { left. split; [exact Ha|]. exists r. rewrite E. auto. }
  right. rewrite E1.
  assert (N1 : net_calls ((h ++ notice ++
                [Net c; LogError (adapter_log (call_family c)) e1;
                 LogError "LLM generation error" e1]) ++ [Sleep 4])
               = S (net_calls h)).
  { rewrite <- app_assoc.
    exact (net_calls_failed_attempt h notice c e1 model Hnotice). }
  match goal with
  | |- context [generate_completion_body _ _ _ _ _ _ _ ?h1] =>
      destruct (Hplan h1) as [(r & E & Ha & Hp & Hm)|(e2 & E2 & Ha2)]
  end.
  { left. rewrite N1 in Ha. repeat split; auto. exists e1, r. rewrite E.
    repeat split; auto. unfold failed_attempt. f_equal.
    rewrite <- !app_assoc. reflexivity. }
  right. rewrite E2. rewrite N1 in Ha2.
  match goal with
  | |- context [generate_completion_body _ _ _ _ _ _ _ (?h2 ++ [Sleep 4])] =>
      assert (N2 : net_calls (h2 ++ [Sleep 4]) = S (S (net_calls h)));
      [| destruct (Hplan (h2 ++ [Sleep 4]))
           as [(r & E & Ha & Hp & Hm)|(e3 & E3 & Ha3)] ]
  end.
  { rewrite <- app_assoc.
    fold (failed_attempt notice c e2).
    rewrite (net_calls_failed_attempt _ notice c e2 model Hnotice), N1.
    reflexivity. }
  { left. rewrite N2 in Ha. repeat split; auto. exists e1, e2, r. rewrite E.
    repeat split; auto. unfold failed_attempt. f_equal.
    rewrite <- !app_assoc. reflexivity. }
  right. rewrite N2 in Ha3. repeat split; auto. exists e1, e2, e3. rewrite E3.
  unfold failed_attempt. f_equal. rewrite <- !app_assoc. reflexivity.
Qed.

Lemma net_calls_sleep seconds h : net_calls (Sleep seconds :: h) = net_calls h.
Proof. reflexivity. Qed.

(** X1. With at least one provider registered, a completion is decided by
    the first of at most three identical calls that the provider
    answers: answered at the [k]-th call it returns after exactly [k]
    network calls, with [provider] and [model] those of the call; never
    answered, it fails with a [RetryError] after exactly three. *)
Theorem completion_decided_by_first_answer
    self cfg messages model t mt kwargs f0 :
  first_available self = Some f0 ->
  exists c,
    registered self (call_family c) = true /\
    forall h, exists o h',
      generate_completion self cfg messages model t mt kwargs h = (o, h') /\
      match first_answer self (net_calls h) c with
      | Some k =>
          net_calls h' = (net_calls h + k)%nat /\
          exists r, o = Returned r /\
                    res_provider r = family_name (call_family c) /\
                    res_model r = call_model c
      | None =>
          net_calls h' = (net_calls h + 3)%nat /\
          exists e, o = Raised (RetryError e)
      end.
Proof.
  intros Hfirst.
  destruct (completion_attempts self cfg messages model t mt kwargs f0 Hfirst)
    as (c & notice & Hnotice & Hreg & _ & _ & Hrun).
  exists c. split; [exact Hreg|]. intros h. unfold first_answer.
  assert (Hnot : net_calls notice = 0%nat)
    by (destruct Hnotice as [->| ->]; reflexivity).
  assert (Hbad : forall e, net_calls (failed_attempt notice c e) = 1%nat)
    by (intros e; destruct Hnotice as [->| ->]; reflexivity).
  destruct (Hrun h) as [(A1 & r & E & Hp & Hm)
                       |[(A1 & A2 & e1 & r & E & Hp & Hm)
                        |[(A1 & A2 & A3 & e1 & e2 & r & E & Hp & Hm)
                         |(A1 & A2 & A3 & e1 & e2 & e3 & E)]]];
    rewrite E; do 2 eexists; (split; [reflexivity|]);
    rewrite ?A1, ?A2, ?A3; (split; [|eauto]);
    repeat (rewrite net_calls_app || rewrite net_calls_sleep);
    rewrite ?Hbad, ?Hnot;
    change (net_calls [Net c]) with 1%nat; lia.
Qed.

(** X2. With at least one provider registered, the events a completion
    adds to the history hold between one and three network calls, all of
    them the same call (one family, one model, the caller's temperature
    and token limit), and calls and pauses alternate: a pause of exactly
    four seconds stands between each call and the next, and nowhere
    else; a failure is reported only after three calls. *)
Theorem completion_call_profile self cfg messages model t mt kwargs f0 :
  first_available self = Some f0 ->
  exists c,
    registered self (call_family c) = true /\
    call_temperature c = t /\ call_max_tokens c = mt /\
    forall h, exists o added k,
      generate_completion self cfg messages model t mt kwargs h = (o, h ++ added) /\
      (1 <= k <= 3)%nat /\
      filter is_net_or_sleep added = calls_and_pauses c k /\
      filter is_net added = repeat (Net c) k /\
      filter is_sleep added = repeat (Sleep 4) (k - 1) /\
      (forall e, o = Raised e -> k = 3%nat).
Proof.
  intros Hfirst.
  destruct (completion_attempts self cfg messages model t mt kwargs f0 Hfirst)
    as (c & notice & Hnotice & Hreg & Ht & Hmt & Hrun).
  exists c. repeat split; auto. intros h.
  destruct (Hrun h) as [(A1 & r & E & Hp & Hm)
                       |[(A1 & A2 & e1 & r & E & Hp & Hm)
                        |[(A1 & A2 & A3 & e1 & e2 & r & E & Hp & Hm)
                         |(A1 & A2 & A3 & e1 & e2 & e3 & E)]]];
    rewrite E; do 2 eexists;
    [exists 1%nat|exists 2%nat|exists 3%nat|exists 3%nat];
    (split; [reflexivity|]); (split; [lia|]);
    unfold failed_attempt;
    destruct Hnotice as [->| ->]; repeat split; try discriminate; reflexivity.
Qed.

(** ** Provider answers *)

(** A chat adapter's attempt against an answer without choices. *)
Lemma body_without_choice self cfg messages model t mt kwargs f client :
  inferred_family model = Some f ->
  chat_client self f = Some client ->
  (forall n kw, exists response,
      client n kw = Returned response /\ choices response = []) ->
  forall h, exists c,
    call_family c = f /\
    generate_completion_body self cfg messages model t mt kwargs h
    = (Raised (IndexError "list index out of range"),
       h ++ [Net c; LogError (adapter_log f) (IndexError "list index out of range");
             LogError "LLM generation error" (IndexError "list index out of range")]).
Proof.
  intros Hf Hc Hmute h.
  assert (Hreg : registered self f = true)
    by (destruct f; simpl in *; try discriminate; now rewrite Hc).
  rewrite (body_native _ _ _ _ _ _ _ f Hf Hreg).
  destruct f; simpl in Hc; try discriminate; unfold adapter, try_except.
  - unfold _generate_openai. rewrite Hc. run_adapter.
    match goal with
    | |- context [client ?n ?kw] =>
        destruct (Hmute n kw) as (resp & -> & ->); exists (OpenAICall kw)
    end.
    split; [reflexivity|]. now rewrite <- !app_assoc.
  - unfold _generate_groq. rewrite Hc. run_adapter.
    match goal with
    | |- context [client ?n ?kw] =>
        destruct (Hmute n kw) as (resp & -> & ->); exists (GroqCall kw)
    end.
    split; [reflexivity|]. now rewrite <- !app_assoc.
Qed.


(** X4. A completion on the native route whose first call the provider
    answers returns at once, with that single call recorded, and its
    result is read off the answer: the text and the finish reason of the
    first choice of an OpenAI or Groq answer (further choices are
    ignored), the text of the first content block and the stop reason of
    an Anthropic answer, each finish indicator in the provider's own
    vocabulary. *)
Theorem result_carries_first_choice self cfg messages model t mt kwargs h f :
  inferred_family model = Some f ->
  (forall client response first rest,
     chat_client self f = Some client ->
     client (net_calls h) (chat_kw messages model t mt kwargs) = Returned response ->
     choices response = first :: rest ->
     generate_completion self cfg messages model t mt kwargs h
     = (Returned {| res_content := message_content first;
                    res_tokens := total_tokens (usage response);
                    res_finish_reason := finish_reason first;
                    res_model := model;
                    res_provider := family_name f |},
        h ++ [Net (chat_call f (chat_kw messages model t mt kwargs))])) /\
  (forall client response first rest,
     f = Anthropic ->
     anthropic_client self = Some client ->
     client (net_calls h) (anthropic_kw messages model t mt) = Returned response ->
     response_content response = first :: rest ->
     generate_completion self cfg messages model t mt kwargs h
     = (Returned {| res_content := text first;
                    res_tokens := input_tokens (response_usage response)
                                  + output_tokens (response_usage response);
                    res_finish_reason := stop_reason response;
                    res_model := model;
                    res_provider := "anthropic" |},
        h ++ [Net (AnthropicCall (anthropic_kw messages model t mt))])).
Proof.
  intros Hf. split.
  - intros client response first rest Hc Hans Hfirst.
    assert (Hreg : registered self f = true)
      by (destruct f; simpl in *; try discriminate; now rewrite Hc).
    apply retry_first_attempt.
    rewrite (body_native _ _ _ _ _ _ _ f Hf Hreg). apply try_except_returned.
    destruct f; simpl in Hc; try discriminate; unfold adapter.
    + unfold _generate_openai. rewrite Hc. run_adapter.
      fold (chat_kw messages model t mt kwargs). rewrite Hans, Hfirst.
      reflexivity.
    + unfold _generate_groq. rewrite Hc. run_adapter.
      fold (chat_kw messages model t mt kwargs). rewrite Hans, Hfirst.
      reflexivity.
  - intros client response first rest -> Hc Hans Hfirst.
    assert (Hreg : registered self Anthropic = true)
      by (simpl; now rewrite Hc).
    apply retry_first_attempt.
    rewrite (body_native _ _ _ _ _ _ _ Anthropic Hf Hreg).
    apply try_except_returned. unfold adapter, _generate_anthropic.
    rewrite Hc. revert Hans. unfold anthropic_kw.
    destruct (convert_messages messages) as [sys turns]. cbn [fst snd].
    intros Hans. run_adapter. rewrite Hans, Hfirst. reflexivity.
Qed.

(** X5. A manager that holds a Groq client only serves every request by
    Groq: a returned result has [provider] ["groq"], and its [model] is
    the requested identifier when that begins with [llama], [mixtral] or
    [gemma], and the configured Groq default for every other identifier. *)
Theorem groq_only_serves_everything self cfg messages model t mt kwargs h r h' :
  openai_client self = None ->
  anthropic_client self = None ->
  groq_client self <> None ->
  generate_completion self cfg messages model t mt kwargs h = (Returned r, h') ->
  res_provider r = "groq" /\
  res_model r =
    (if startswith model "llama" || startswith model "mixtral"
        || startswith model "gemma"
     then model else GROQ_MODEL cfg).
Proof.
  intros Ho Ha Hg H. unfold generate_completion, retry in H.
  apply attempts_from_returned in H. destruct H as (h0 & H).
  destruct (groq_client self) as [client|] eqn:Hgc; [clear Hg|now elim Hg].
  assert (Hfirst : first_available self = Some Groq)
    by (unfold first_available, fallback_order, registered; simpl;
        now rewrite Hgc).
  destruct (native_registered self model) eqn:Hn.
  - unfold native_registered in Hn.
    destruct (inferred_family model) as [f|] eqn:Hf; [|discriminate].
    rewrite (body_native _ _ _ _ _ _ _ f Hf Hn) in H.
    unfold try_except in H.
    destruct (adapter f self messages model t mt kwargs h0) as [[x|e] h1] eqn:E;
      [|discriminate H].
    inversion H; subst; clear H.
    apply adapter_returned in E. destruct E as (_ & Hp & Hm & _).
    destruct f; simpl in Hn; rewrite ?Ho, ?Ha in Hn; try discriminate Hn.
    rewrite Hp, Hm. split; [reflexivity|].
    unfold inferred_family in Hf.
    destruct (startswith model "gpt" || startswith model "o1"); [discriminate|].
    destruct (startswith model "claude"); [discriminate|].
    destruct (startswith model "llama" || startswith model "mixtral"
              || startswith model "gemma"); [reflexivity|discriminate].
  - rewrite (body_fallback _ _ _ _ _ _ _ Groq Hn Hfirst) in H.
    unfold try_except, bind at 1, emit at 1 in H.
    destruct (adapter Groq self messages (default_model cfg Groq) t mt kwargs
                (h0 ++ [fallback_notice model])) as [[x|e] h1] eqn:E;
      [|discriminate H].
    inversion H; subst; clear H.
    apply adapter_returned in E. destruct E as (_ & Hp & Hm & _).
    rewrite Hp, Hm. split; [reflexivity|].
    revert Hn. unfold native_registered, inferred_family, registered.
    rewrite Hgc, Ho, Ha.
    split_prefixes model; cbn [orb andb truthy]; intros Hn;
      try discriminate Hn; reflexivity.
Qed.

(** ** Construction *)

Ltac init_case :=
  do 2 eexists; split;
  [ apply f_equal2;
    [ reflexivity
    | first [ rewrite <- ?app_assoc; reflexivity
            | symmetry; apply app_nil_r ] ]
  | split; [reflexivity|]; split; [simpl; lia|] ].


(** A manager without any client fails every completion, attempt after
    attempt, without a network call. *)
Lemma completion_without_provider self cfg messages model t mt kwargs h :
  first_available self = None ->
  exists h',
    generate_completion self cfg messages model t mt kwargs h
    = (Raised (RetryError no_providers_error), h') /\
    net_calls h' = net_calls h.
Proof.
  intros Hnone.
  assert (Hbody : forall h0,
     generate_completion_body self cfg messages model t mt kwargs h0
     = (Raised no_providers_error,
        h0 ++ [fallback_notice model;
               LogError "LLM generation error" no_providers_error])).
  { intros h0. rewrite body_no_provider by exact Hnone.
    unfold try_except, bind, emit, raise. now rewrite <- app_assoc. }
  eexists. split.
  - eapply three_failures; apply Hbody.
  - repeat (rewrite net_calls_app || rewrite net_calls_sleep).
    unfold net_calls at 2 3 4 5 6. simpl. lia.
Qed.

(** X7. A manager constructed without a usable key (each key absent or
    empty) is built silently: no constructor is tried and nothing is
    logged.  Every completion asked of it then fails with the
    configuration error, after its three attempts, without a network
    call. *)
Theorem init_without_keys_serves_nothing sdk keys h :
  key_truthy (OPENAI_API_KEY keys) = false ->
  key_truthy (ANTHROPIC_API_KEY keys) = false ->
  str_truthy (GROQ_API_KEY keys) = false ->
  exists self,
    __init__ sdk keys h = (Returned self, h) /\
    (forall provider, is_available self provider = false) /\
    forall cfg messages model t mt kwargs h1,
    exists h',
      generate_completion self cfg messages model t mt kwargs h1
      = (Raised (RetryError no_providers_error), h') /\
      net_calls h' = net_calls h1.
Proof.
  intros Ho Ha Hg.
  exists {| openai_client := None; anthropic_client := None; groq_client := None |}.
  split; [|split].
  - destruct keys as [ok ak gk]. unfold __init__. simpl in *.
    rewrite Hg.
    destruct ok as [ko|]; [simpl in Ho; rewrite Ho|];
      (destruct ak as [ka|]; [simpl in Ha; rewrite Ha|]); reflexivity.
  - intros provider. unfold is_available. simpl.
    now destruct (String.eqb provider "openai"),
      (String.eqb provider "anthropic"), (String.eqb provider "groq").
  - intros. now apply completion_without_provider.
Qed.

(** ** Embeddings *)

(** X8. [generate_embeddings] asks OpenAI once and nobody else: without
    an OpenAI client it raises its [ValueError] and makes no call, even
    when other providers are registered; with one it makes exactly one
    call carrying the model and the texts, a provider error reaches the
    caller as it is (not retried, not wrapped), and a response yields
    one vector per data item, in the order of the response. *)
Theorem generate_embeddings_single_call self create texts model h :
  (openai_client self = None ->
   generate_embeddings self create texts model h
   = (Raised (ValueError "OpenAI client not initialized. Check API key."), h)) /\
  (openai_client self <> None ->
   exists o h',
     generate_embeddings self create texts model h = (o, h') /\
     embeddings_calls h' = S (embeddings_calls h) /\
     match create (embeddings_calls h) {| ec_model := model; ec_input := texts |} with
     | Returned response =>
         o = Returned (map embedding (data response)) /\
         h' = h ++ [EmbeddingsCall {| ec_model := model; ec_input := texts |}]
     | Raised e =>
         o = Raised e /\
         h' = h ++ [EmbeddingsCall {| ec_model := model; ec_input := texts |};
                    EmbeddingsLogError "Embedding generation error" e]
     end).
Proof.
  unfold generate_embeddings. split.
  - intros ->. reflexivity.
  - intros Hc. destruct (openai_client self); [|now elim Hc]. cbn [truthy negb].
    destruct (create _ _) as [response|e]; do 2 eexists;
      (split; [reflexivity|]); (split; [|split; reflexivity]);
      unfold embeddings_calls; rewrite filter_app, length_app; simpl; lia.
Qed.

(** X9. [generate_single_embedding] sends the one text as a list of one
    and returns the first vector of the response; a response without
    data yields the empty vector, not an error. *)
Theorem generate_single_embedding_first self create text model h response :
  openai_client self <> None ->
  create (embeddings_calls h) {| ec_model := model; ec_input := [text] |}
    = Returned response ->
  generate_single_embedding self create text model h
  = (Returned (match data response with
               | first :: _ => embedding first
               | [] => []
               end),
     h ++ [EmbeddingsCall {| ec_model := model; ec_input := [text] |}]).
Proof.
  intros Hc Hr. unfold generate_single_embedding, generate_embeddings.
  destruct (openai_client self); [|now elim Hc]. cbn [truthy negb].
  rewrite Hr. now destruct (data response).
Qed.

(** ** Token estimate *)

Lemma string_length_append a b :
  String.length (a ++ b)%string = (String.length a + String.length b)%nat.
Proof. induction a as [|c a IH]; simpl; [reflexivity|now rewrite IH]. Qed.

(** X10. [count_tokens] is the number of whole groups of four characters,
    whatever the model: the text has at least four characters per
    counted token and fewer than four left over, so a text of up to
    three characters counts as zero tokens. *)
Theorem count_tokens_bounds text model :
  0 <= count_tokens text model /\
  4 * count_tokens text model <= Z.of_nat (String.length text)
    < 4 * count_tokens text model + 4 /\
  count_tokens text model = count_tokens text "gpt-4".
Proof.
  unfold count_tokens. split; [|split; [|reflexivity]].
  - apply Z.div_pos; lia.
  - pose proof (Z.div_mod (Z.of_nat (String.length text)) 4 ltac:(lia)).
    pose proof (Z.mod_pos_bound (Z.of_nat (String.length text)) 4 ltac:(lia)).
    lia.
Qed.

(** X11. Counting two texts apart never gives more than counting their
    concatenation, and misses at most one token. *)
Theorem count_tokens_concat a b model :
  count_tokens a model + count_tokens b model
    <= count_tokens (a ++ b)%string model
    <= count_tokens a model + count_tokens b model + 1.
Proof.
  unfold count_tokens. rewrite string_length_append, Nat2Z.inj_add.
  set (x := Z.of_nat (String.length a)). set (y := Z.of_nat (String.length b)).
  pose proof (Z.div_mod x 4 ltac:(lia)).
  pose proof (Z.mod_pos_bound x 4 ltac:(lia)).
  pose proof (Z.div_mod y 4 ltac:(lia)).
  pose proof (Z.mod_pos_bound y 4 ltac:(lia)).
  pose proof (Z.div_mod (x + y) 4 ltac:(lia)).
  pose proof (Z.mod_pos_bound (x + y) 4 ltac:(lia)).
  lia.
Qed.

(** * The callers *)

(** ** Building the chat messages *)

Lemma fold_left_append {A B} (f : A -> B) xs :
  forall acc, fold_left (fun ys x => ys ++ [f x]) xs acc = acc ++ map f xs.
Proof.
  induction xs as [|x xs IH]; intros acc; simpl.
  - now rewrite app_nil_r.
  - rewrite IH, <- app_assoc. reflexivity.
Qed.

Lemma build_messages_eq user_message history paper_context :
  _build_messages user_message history paper_context
  = {| role := "system"; content := chat_system_prompt paper_context |}
    :: map to_message (last_items 10 history)
    ++ [ {| role := "user"; content := user_message |} ].
Proof.
  unfold _build_messages.
  rewrite (fold_left_append to_message). reflexivity.
Qed.

Lemma last_items_length {A} n (xs : list A) :
  length (last_items n xs) = Nat.min (length xs) n.
Proof. unfold last_items. rewrite length_skipn. lia. Qed.

Lemma last_items_app {A} n (older recent : list A) :
  length recent = n -> last_items n (older ++ recent) = recent.
Proof.
  intros H. unfold last_items. rewrite length_app, H.
  replace (length older + n - n)%nat with (length older + 0)%nat by lia.
  rewrite skipn_app, Nat.add_0_r, skipn_all.
  replace (length older - length older)%nat with 0%nat by lia. reflexivity.
Qed.

(** X12. The message list for a chat is the system prompt, then the last
    ten messages of the history in their order, then the user's message:
    between two and twelve messages, and what precedes the last ten
    messages of the history has no influence on it. *)
Theorem build_messages_window user_message history paper_context :
  _build_messages user_message history paper_context
  = {| role := "system"; content := chat_system_prompt paper_context |}
    :: map to_message (last_items 10 history)
    ++ [ {| role := "user"; content := user_message |} ] /\
  length (_build_messages user_message history paper_context)
  = (Nat.min (length history) 10 + 2)%nat /\
  (forall older recent,
     history = older ++ recent -> length recent = 10%nat ->
     _build_messages user_message history paper_context
     = _build_messages user_message recent paper_context).
Proof.
  split; [apply build_messages_eq|]. split.
  - rewrite build_messages_eq. simpl.
    rewrite length_app, length_map, last_items_length. simpl. lia.
  - intros older recent -> Hlen. rewrite !build_messages_eq.
    rewrite (last_items_app 10 older recent Hlen).
    replace (last_items 10 recent) with recent; [reflexivity|].
    symmetry. exact (last_items_app 10 [] recent Hlen).
Qed.

Lemma last_system_app xs ys :
  last_system (xs ++ ys)
  = match last_system ys with Some s => Some s | None => last_system xs end.
Proof.
  induction xs as [|x xs IH]; simpl.
  - now destruct (last_system ys).
  - rewrite IH. now destruct (last_system ys).
Qed.

Lemma last_system_none xs :
  Forall (fun msg => role msg <> "system") xs ->
  last_system xs = None /\ non_system xs = xs.
Proof.
  induction 1 as [|x xs Hx _ [IH1 IH2]]; [now split|].
  unfold non_system in *. simpl. rewrite IH1, IH2. unfold is_system.
  apply String.eqb_neq in Hx. now rewrite Hx.
Qed.

Lemma last_system_some xs s :
  last_system xs = Some s ->
  exists msg, In msg xs /\ role msg = "system" /\ content msg = s.
Proof.
  induction xs as [|x xs IH]; simpl; [discriminate|].
  destruct (last_system xs) as [s'|].
  - intros H; inversion H; subst. destruct (IH eq_refl) as (m & Hin & Hm).
    exists m. auto.
  - unfold is_system. destruct (String.eqb (role x) "system") eqn:E;
      [|discriminate].
    intros H; inversion H; subst. exists x. apply String.eqb_eq in E. auto.
Qed.

Lemma last_system_exists xs msg :
  In msg xs -> role msg = "system" -> exists s, last_system xs = Some s.
Proof.
  induction xs as [|x xs IH]; simpl; [tauto|].
  intros [->|Hin] Hr.
  - destruct (last_system xs); [eauto|]. unfold is_system. rewrite Hr.
    simpl. eauto.
  - destruct (IH Hin Hr) as (s & ->). eauto.
Qed.

(** What the Anthropic adapter makes of the chat messages. *)
Lemma convert_build_messages user_message history paper_context :
  convert_messages (_build_messages user_message history paper_context)
  = (match last_system (map to_message (last_items 10 history)) with
     | Some s => Some s
     | None => Some (chat_system_prompt paper_context)
     end,
     non_system (map to_message (last_items 10 history))
     ++ [ {| role := "user"; content := user_message |} ]).
Proof.
  rewrite convert_messages_spec, build_messages_eq.
  change ({| role := "system"; content := chat_system_prompt paper_context |}
          :: map to_message (last_items 10 history)
          ++ [{| role := "user"; content := user_message |}])
    with ([{| role := "system"; content := chat_system_prompt paper_context |}]
          ++ map to_message (last_items 10 history)
          ++ [{| role := "user"; content := user_message |}]).
  rewrite !last_system_app. unfold non_system. rewrite !filter_app.
  simpl. now destruct (last_system (map to_message (last_items 10 history))).
Qed.

(** X13. A chat served by Anthropic: when none of the last ten history
    messages has the role [system], the system field is the Synthia
    prompt with the paper context and the turns are those history
    messages and the user's message; when one of them has the role
    [system], the system field is the content of such a history message
    instead (the Synthia prompt is not sent) and no history message of
    that role is among the turns. *)
Theorem chat_on_anthropic user_message history paper_context :
  (Forall (fun msg => chat_role msg <> "system") (last_items 10 history) ->
   convert_messages (_build_messages user_message history paper_context)
   = (Some (chat_system_prompt paper_context),
      map to_message (last_items 10 history)
      ++ [ {| role := "user"; content := user_message |} ])) /\
  (forall msg,
     In msg (last_items 10 history) -> chat_role msg = "system" ->
     exists msg',
       In msg' (last_items 10 history) /\ chat_role msg' = "system" /\
       fst (convert_messages (_build_messages user_message history paper_context))
       = Some (chat_content msg') /\
       Forall (fun turn => role turn <> "system")
         (snd (convert_messages (_build_messages user_message history paper_context)))).
Proof.
  rewrite convert_build_messages. split.
  - intros Hnone.
    assert (H : Forall (fun msg => role msg <> "system")
                  (map to_message (last_items 10 history)))
      by (apply Forall_map; exact Hnone).
    apply last_system_none in H. destruct H as [-> ->]. reflexivity.
  - intros msg Hin Hrole.
    destruct (last_system_exists (map to_message (last_items 10 history))
                (to_message msg)) as (s & Hs).
    { now apply in_map. }
    { exact Hrole. }
    rewrite Hs. cbn [fst snd].
    destruct (last_system_some _ _ Hs) as (m & Hm & Hr & Hc).
    apply in_map_iff in Hm. destruct Hm as (msg' & <- & Hin').
    exists msg'. repeat split; auto.
    + now rewrite <- Hc.
    + apply Forall_app. split.
      * unfold non_system. apply Forall_forall. intros turn Ht.
        apply filter_In in Ht. destruct Ht as [_ Ht]. unfold is_system in Ht.
        intros E. rewrite E in Ht. discriminate Ht.
      * constructor; [discriminate|constructor].
Qed.

(** ** The chat endpoint *)

(** A completion that returns ends with the network call that was
    answered; on the fallback route that call went to the first
    available family with its default model. *)
Lemma completion_returned_route self cfg messages model t mt kwargs h r h' :
  generate_completion self cfg messages model t mt kwargs h = (Returned r, h') ->
  exists c before,
    h' = before ++ [Net c] /\
    res_model r = call_model c /\
    res_provider r = family_name (call_family c) /\
    (native_registered self model = false ->
     forall f, first_available self = Some f ->
               call_family c = f /\ call_model c = default_model cfg f).
Proof.
  intros H. unfold generate_completion, retry in H.
  apply attempts_from_returned in H. destruct H as (h0 & H).
  destruct (native_registered self model) eqn:Hn.
  - apply body_returned in H.
    destruct H as (f & c & before & _ & Hp & -> & Hf & Hm).
    exists c, before. rewrite Hf.
    split; [reflexivity|]. split; [auto|]. split; [auto|].
    intros Hfalse; discriminate Hfalse.
  - destruct (first_available self) as [f|] eqn:Hfirst.
    + rewrite (body_fallback _ _ _ _ _ _ _ f Hn Hfirst) in H.
      unfold try_except, bind at 1, emit at 1 in H.
      destruct (adapter f self messages (default_model cfg f) t mt kwargs
                  (h0 ++ [fallback_notice model])) as [[x|e] h1] eqn:E;
        [|discriminate H].
      inversion H; subst; clear H.
      apply adapter_returned in E.
      destruct E as (_ & Hp & Hm & c & -> & Hf & Hc).
      exists c, (h0 ++ [fallback_notice model]). rewrite Hf, Hc.
      split; [reflexivity|]. split; [auto|]. split; [auto|].
      intros _ f' Hf'; inversion Hf'; subst; auto.
    + rewrite (body_no_provider _ _ _ _ _ _ _ Hfirst) in H. discriminate H.
Qed.

(** X14. When [chat_completion] responds, the paper context was built,
    the completion asked for the messages of [_build_messages] with the
    model, temperature and token limit of the request returned a result,
    and the response is made of that result: its text, token count and
    finish reason.  The [model] of the metadata however is the model the
    request named: on the fallback route it is not the model the
    provider was called with, which is the default of the first
    available family. *)
Theorem chat_metadata_names_requested_model
    (Papers : Type) (_build_paper_context : Papers -> Outcome string)
    llm_manager cfg (request : ChatCompletionRequest Papers) h response h' :
  chat_completion Papers _build_paper_context llm_manager cfg request h
    = (Responded response, h') ->
  exists paper_context r c before,
    _build_paper_context (papers Papers (rq_context Papers request))
      = Returned paper_context /\
    generate_completion llm_manager cfg
      (_build_messages (rq_message Papers request)
         (conversationHistory Papers (rq_context Papers request)) paper_context)
      (rq_model Papers request) (rq_temperature Papers request)
      (rq_maxTokens Papers request) []
      (h ++ [LogInfo ("Chat completion request for session: "
                      ++ sessionId Papers (rq_context Papers request))%string])
    = (Returned r, before ++ [Net c]) /\
    h' = before ++ [Net c;
                    LogInfo ("Chat completion successful. Tokens used: "
                             ++ str_int (res_tokens r))%string] /\
    response = {| response_text := res_content r;
                  response_metadata :=
                    {| meta_model := rq_model Papers request;
                       meta_tokens := res_tokens r;
                       meta_finish_reason := res_finish_reason r |} |} /\
    res_model r = call_model c /\
    (native_registered llm_manager (rq_model Papers request) = false ->
     forall f, first_available llm_manager = Some f ->
               call_family c = f /\ call_model c = default_model cfg f).
Proof.
  unfold chat_completion, chat_completion_try.
  unfold bind at 1, emit at 1. unfold bind at 1.
  destruct (_build_paper_context _) as [paper_context|e0]; [|discriminate].
  unfold bind at 1.
  destruct (generate_completion _ _ _ _ _ _ _ _) as [[r|e] h1] eqn:E;
    [|discriminate].
  unfold bind, emit, ret. intros H; inversion H; subst; clear H.
  pose proof (completion_returned_route _ _ _ _ _ _ _ _ _ _ E)
    as (c & before & -> & Hm & _ & Hfb).
  exists paper_context, r, c, before. rewrite <- app_assoc.
  split; [reflexivity|]. split; [exact E|]. split; [reflexivity|].
  split; [reflexivity|]. split; [exact Hm|exact Hfb].
Qed.

(** X15. [chat_completion] turns every failure into status 500 with the
    detail ["Failed to generate chat completion: "] followed by the
    exception, logged once more.  The exception is either the one raised
    while the paper context was built, before any network call, or the
    [RetryError] of the completion: the provider's own error is never
    the one reported. *)
Theorem chat_failure_is_500
    (Papers : Type) (_build_paper_context : Papers -> Outcome string)
    llm_manager cfg (request : ChatCompletionRequest Papers)
    h status_code detail about h' :
  chat_completion Papers _build_paper_context llm_manager cfg request h
    = (HTTPException status_code detail about, h') ->
  status_code = 500 /\
  detail = "Failed to generate chat completion: " /\
  exists e before,
    about = Some e /\
    h' = before ++ [LogError "Chat completion error" e] /\
    ((_build_paper_context (papers Papers (rq_context Papers request)) = Raised e /\
      net_calls h' = net_calls h) \/
     exists e', e = RetryError e').
Proof.
  unfold chat_completion, chat_completion_try.
  unfold bind at 1, emit at 1. unfold bind at 1.
  destruct (_build_paper_context _) as [paper_context|e0] eqn:Hctx.
  - unfold bind at 1.
    destruct (generate_completion _ _ _ _ _ _ _ _) as [[r|e] h1] eqn:E.
    + unfold bind, emit, ret. discriminate.
    + intros H; inversion H; subst; clear H.
      apply generate_completion_raises_only_RetryError in E.
      destruct E as (e' & h0 & -> & _).
      repeat split. exists (RetryError e'), h1. repeat split. right. eauto.
  - intros H; inversion H; subst; clear H.
    repeat split. eexists e0, _. repeat split. left. split; [reflexivity|].
    repeat (rewrite net_calls_app). unfold net_calls at 2 3. simpl. lia.
Qed.

(** ** The writing endpoint *)

Lemma bind_returned {A B} (m : M A) (f : A -> M B) h b h' :
  bind m f h = (Returned b, h') ->
  exists a h1, m h = (Returned a, h1) /\ f a h1 = (Returned b, h').
Proof.
  unfold bind. destruct (m h) as [[a|e] h1]; [eauto|discriminate].
Qed.

Lemma bind_raised {A B} (m : M A) (f : A -> M B) h e h' :
  bind m f h = (Raised e, h') ->
  m h = (Raised e, h') \/
  exists a h1, m h = (Returned a, h1) /\ f a h1 = (Raised e, h').
Proof.
  unfold bind. destruct (m h) as [[a|e0] h1]; [eauto|].
  intros H; inversion H; subst. now left.
Qed.

(** One analysis leaves the suggestions as they were, or fails with the
    [RetryError] of its completion. *)
Lemma analysis_keeps_suggestions llm_manager cfg (selected : bool) prompt t
    store suggestions h o h' :
  (if selected
   then analysis_step llm_manager cfg prompt t store suggestions
   else ret suggestions) h = (o, h') ->
  o = Returned suggestions \/ exists e, o = Raised (RetryError e).
Proof.
  destruct selected.
  - unfold analysis_step, bind.
    destruct (generate_completion _ _ _ _ _ _ _ _) as [[r|e] h1] eqn:E.
    + unfold json_loads_dict, ret. intros H; inversion H; subst. now left.
    + intros H; inversion H; subst.
      apply generate_completion_raises_only_RetryError in E.
      destruct E as (e' & _ & -> & _). right. eauto.
  - unfold ret. intros H; inversion H; subst. now left.
Qed.

Lemma analyze_writing_try_outcome llm_manager cfg request h o h' :
  analyze_writing_try llm_manager cfg request h = (o, h') ->
  o = Returned {| grammar := []; style := []; clarity := []; academic := [];
                  improvements := default_improvements |} \/
  exists e, o = Raised (RetryError e).
Proof.
  unfold analyze_writing_try. cbv zeta. unfold bind at 1.
  match goal with
  | |- context [(if ?b then ?x else ?y) h] =>
      destruct ((if b then x else y) h) as [o1 h1] eqn:E1
  end.
  apply analysis_keeps_suggestions in E1.
  destruct E1 as [->|(e & ->)]; [|intros H; inversion H; subst; right; eauto].
  cbn [grammar style clarity academic improvements]. unfold bind at 1.
  match goal with
  | |- context [(if ?b then ?x else ?y) h1] =>
      destruct ((if b then x else y) h1) as [o2 h2] eqn:E2
  end.
  apply analysis_keeps_suggestions in E2.
  destruct E2 as [->|(e & ->)]; [|intros H; inversion H; subst; right; eauto].
  cbn [grammar style clarity academic improvements]. unfold bind at 1.
  match goal with
  | |- context [(if ?b then ?x else ?y) h2] =>
      destruct ((if b then x else y) h2) as [o3 h3] eqn:E3
  end.
  apply analysis_keeps_suggestions in E3.
  destruct E3 as [->|(e & ->)]; [|intros H; inversion H; subst; right; eauto].
  cbn [grammar style clarity academic improvements]. unfold bind at 1.
  match goal with
  | |- context [(if ?b then ?x else ?y) h3] =>
      destruct ((if b then x else y) h3) as [o4 h4] eqn:E4
  end.
  apply analysis_keeps_suggestions in E4.
  destruct E4 as [->|(e & ->)]; [|intros H; inversion H; subst; right; eauto].
  cbn [grammar style clarity academic improvements]. unfold bind.
  destruct (generate_completion _ _ _ _ _ _ _ _) as [[r|e] h5] eqn:E5.
  - unfold ret, json_loads_dict. intros H; inversion H; subst. now left.
  - intros H; inversion H; subst.
    apply generate_completion_raises_only_RetryError in E5.
    destruct E5 as (e' & _ & -> & _). right. eauto.
Qed.


(** ** Paper summaries *)

(** Whatever the registry, a completion adds at most three network
    calls, each with the caller's temperature and token limit, and its
    failure is a [RetryError]. *)
Lemma completion_calls_carry self cfg messages model t mt kwargs h :
  exists o added,
    generate_completion self cfg messages model t mt kwargs h = (o, h ++ added) /\
    Forall (carries t mt) added /\
    (net_calls added <= 3)%nat /\
    match o with
    | Returned _ => True
    | Raised e => exists e', e = RetryError e'
    end.
Proof.
  destruct (first_available self) as [f0|] eqn:Hfirst.
  - destruct (completion_attempts self cfg messages model t mt kwargs f0 Hfirst)
      as (c & notice & Hnotice & Hreg & Ht & Hmt & Hrun).
    assert (Hc : carries t mt (Net c)) by (simpl; auto).
    destruct (Hrun h) as [(A1 & r & E & Hp & Hm)
                         |[(A1 & A2 & e1 & r & E & Hp & Hm)
                          |[(A1 & A2 & A3 & e1 & e2 & r & E & Hp & Hm)
                           |(A1 & A2 & A3 & e1 & e2 & e3 & E)]]];
      rewrite E; do 2 eexists; (split; [reflexivity|]);
      unfold failed_attempt; destruct Hnotice as [->| ->];
      (split; [cbn [app];
               repeat (apply Forall_cons; [first [exact Hc|exact I]|]);
               apply Forall_nil|]);
      (split; [unfold net_calls; simpl; lia|]); eauto.
  - assert (Hbody : forall h0,
       generate_completion_body self cfg messages model t mt kwargs h0
       = (Raised no_providers_error,
          h0 ++ [fallback_notice model;
                 LogError "LLM generation error" no_providers_error])).
    { intros h0. rewrite body_no_provider by exact Hfirst.
      unfold try_except, bind, emit, raise. now rewrite <- app_assoc. }
    exists (Raised (RetryError no_providers_error)).
    exists ([fallback_notice model;
             LogError "LLM generation error" no_providers_error; Sleep 4;
             fallback_notice model;
             LogError "LLM generation error" no_providers_error; Sleep 4;
             fallback_notice model;
             LogError "LLM generation error" no_providers_error]).
    split; [|split; [repeat (apply Forall_cons; [exact I|]); apply Forall_nil
                   |split; [unfold net_calls; simpl; lia|eauto]]].
    rewrite (three_failures _ _ _ _ _ _ _ _ _ _ _ _ _ _
               (Hbody h) (Hbody _) (Hbody _)).
    f_equal. rewrite <- !app_assoc. reflexivity.
Qed.

(** X17. [summarize_paper] awaits one completion, asked for model
    ["gpt-4"] at temperature 0.3 with a system and a user message and a
    token limit of 200 for the type ["brief"], 1000 for ["technical"]
    and 800 for any other type, known or not.  Every network call this
    causes carries that temperature and limit.  The summary is the text
    of the completion, with its token count and with the type as it was
    handed in; a failure is the [RetryError] of the completion, logged
    once more and raised again. *)
Theorem summarize_paper_budget llm cfg paper summary_type h :
  exists messages budget,
    map role messages = ["system"; "user"] /\
    ((summary_type = "brief" /\ budget = 200) \/
     (summary_type = "technical" /\ budget = 1000) \/
     (summary_type <> "brief" /\ summary_type <> "technical" /\ budget = 800)) /\
    exists o added,
      generate_completion llm cfg messages "gpt-4" three_tenths budget [] h
      = (o, h ++ added) /\
      Forall (carries three_tenths budget) added /\
      (net_calls added <= 3)%nat /\
      summarize_paper llm cfg paper summary_type h
      = match o with
        | Returned r =>
            (Returned {| summary_text := res_content r;
                         summary_kind := summary_type;
                         tokens_used := res_tokens r |},
             h ++ added)
        | Raised e =>
            (Raised e, h ++ added ++ [LogError "Paper summarization error" e])
        end /\
      match o with
      | Returned _ => True
      | Raised e => exists e', e = RetryError e'
      end.
Proof.
  unfold summarize_paper.
  assert (Hcase :
    (summary_type = "brief" /\ String.eqb summary_type "brief" = true) \/
    (summary_type = "technical" /\ String.eqb summary_type "brief" = false /\
     String.eqb summary_type "technical" = true) \/
    (summary_type <> "brief" /\ summary_type <> "technical" /\
     String.eqb summary_type "brief" = false /\
     String.eqb summary_type "technical" = false)).
  { destruct (String.eqb summary_type "brief") eqn:Eb.
    - apply String.eqb_eq in Eb. auto.
    - apply String.eqb_neq in Eb.
      destruct (String.eqb summary_type "technical") eqn:Et.
      + apply String.eqb_eq in Et. auto.
      + apply String.eqb_neq in Et. auto 6. }
  destruct Hcase as [(Hs & Eb)|[(Hs & Eb & Et)|(Hb & Hte & Eb & Et)]];
    rewrite Eb, ?Et; cbv beta iota zeta;
    match goal with
    | |- context [generate_completion llm cfg ?msgs "gpt-4" three_tenths ?mt []] =>
        exists msgs, mt;
        destruct (completion_calls_carry llm cfg msgs "gpt-4" three_tenths mt [] h)
          as (o & added & E & Hcarry & Hnet & Ho)
    end;
    (split; [reflexivity|]); (split; [auto 6|]);
    exists o, added; (split; [exact E|]); (split; [exact Hcarry|]);
    (split; [exact Hnet|]); (split; [|exact Ho]);
    unfold try_except, bind at 1; rewrite E; destruct o as [r|e];
    [reflexivity|unfold bind, emit, raise; now rewrite <- app_assoc
    |reflexivity|unfold bind, emit, raise; now rewrite <- app_assoc
    |reflexivity|unfold bind, emit, raise; now rewrite <- app_assoc].
Qed.

(** ** The further properties at concrete inputs *)

(** A client refused twice answers the third call. *)
Lemma completion_decided_by_first_answer_flaky :
  first_available openai_flaky = Some OpenAI /\
  exists o h',
    generate_completion openai_flaky settings hello "gpt-4" half 2000 [] []
    = (o, h') /\
    net_calls h' = 3%nat /\ exists r, o = Returned r.
Proof.
  split; [reflexivity|].
  destruct (completion_decided_by_first_answer openai_flaky settings hello
              "gpt-4" half 2000 [] OpenAI eq_refl) as (c & Hreg & Hrun).
  destruct (Hrun []) as (o & h' & E & Hm).
  exists o, h'. split; [exact E|].
  destruct c as [kw|kw|kw]; try discriminate Hreg.
  change (first_answer openai_flaky (net_calls []) (OpenAICall kw))
    with (Some 3%nat) in Hm.
  destruct Hm as (Hn & r & Hr & _). split; [exact Hn|]. exists r. exact Hr.
Defined.

Lemma completion_call_profile_groq :
  first_available only_groq = Some Groq /\
  exists c,
    registered only_groq (call_family c) = true /\
    call_temperature c = half /\ call_max_tokens c = 2000 /\
    forall h, exists o added k,
      generate_completion only_groq settings hello "gpt-4" half 2000 [] h
      = (o, h ++ added) /\
      (1 <= k <= 3)%nat /\
      filter is_net_or_sleep added = calls_and_pauses c k /\
      filter is_net added = repeat (Net c) k /\
      filter is_sleep added = repeat (Sleep 4) (k - 1) /\
      (forall e, o = Raised e -> k = 3%nat).
Proof.
  split; [reflexivity|].
  exact (completion_call_profile only_groq settings hello "gpt-4" half 2000 []
           Groq eq_refl).
Defined.

(** The text and finish reason of the first choice, on OpenAI. *)
Lemma result_carries_first_choice_openai :
  inferred_family "gpt-4" = Some OpenAI /\
  generate_completion only_openai settings hello "gpt-4" half 2000 [] []
  = (Returned {| res_content := "ok"; res_tokens := 12;
                 res_finish_reason := "stop"; res_model := "gpt-4";
                 res_provider := "openai" |},
     [Net (OpenAICall (chat_kw hello "gpt-4" half 2000 []))]).
Proof.
  split; [reflexivity|].
  exact (proj1 (result_carries_first_choice only_openai settings hello "gpt-4"
                  half 2000 [] [] OpenAI eq_refl)
           chat_ok sample_completion _ _ eq_refl eq_refl eq_refl).
Defined.


Lemma groq_only_serves_everything_gpt4 :
  exists r h',
    generate_completion only_groq settings hello "gpt-4" half 2000 [] []
    = (Returned r, h') /\
    res_provider r = "groq" /\ res_model r = "llama-3.3-70b-versatile".
Proof.
  destruct (generate_completion only_groq settings hello "gpt-4" half 2000 [] [])
    as [[r|e] h'] eqn:E; [|vm_compute in E; discriminate E].
  exists r, h'. split; [reflexivity|].
  exact (groq_only_serves_everything only_groq settings hello "gpt-4" half 2000
           [] [] r h' eq_refl eq_refl ltac:(discriminate) E).
Defined.

Lemma init_without_keys_serves_nothing_empty :
  exists self,
    __init__ sdk_ok no_keys [] = (Returned self, []) /\
    (forall provider, is_available self provider = false) /\
    forall cfg messages model t mt kwargs h1,
    exists h',
      generate_completion self cfg messages model t mt kwargs h1
      = (Raised (RetryError no_providers_error), h') /\
      net_calls h' = net_calls h1.
Proof.
  exact (init_without_keys_serves_nothing sdk_ok no_keys [] eq_refl eq_refl eq_refl).
Defined.

Lemma generate_single_embedding_first_ok :
  generate_single_embedding only_openai embeddings_ok "text"
    "text-embedding-ada-002" []
  = (Returned [half],
     [EmbeddingsCall {| ec_model := "text-embedding-ada-002";
                        ec_input := ["text"] |}]).
Proof.
  exact (generate_single_embedding_first only_openai embeddings_ok "text"
           "text-embedding-ada-002" [] _ ltac:(discriminate) eq_refl).
Defined.

Lemma chat_metadata_names_requested_model_groq :
  exists response h' r c,
    chat_completion unit no_papers only_groq settings sample_chat_request []
    = (Responded response, h') /\
    response = {| response_text := res_content r;
                  response_metadata :=
                    {| meta_model := "gpt-4";
                       meta_tokens := res_tokens r;
                       meta_finish_reason := res_finish_reason r |} |} /\
    res_model r = call_model c /\
    call_model c = "llama-3.3-70b-versatile".
Proof.
  destruct (chat_completion unit no_papers only_groq settings
              sample_chat_request []) as [[response|code detail about] h'] eqn:E;
    [|vm_compute in E; discriminate E].
  destruct (chat_metadata_names_requested_model unit no_papers only_groq
              settings sample_chat_request [] response h' E)
    as (ctx & r & c & before & _ & _ & _ & Hresp & Hm & Hfb).
  exists response, h', r, c.
  split; [reflexivity|]. split; [exact Hresp|]. split; [exact Hm|].
  exact (proj2 (Hfb eq_refl Groq eq_refl)).
Defined.

Lemma chat_failure_is_500_down :
  exists about h',
    chat_completion unit no_papers openai_down settings sample_chat_request []
    = (HTTPException 500 "Failed to generate chat completion: " about, h') /\
    exists e', about = Some (RetryError e').
Proof.
  destruct (chat_completion unit no_papers openai_down settings
              sample_chat_request []) as [[response|code detail about] h'] eqn:E;
    [vm_compute in E; discriminate E|].
  destruct (chat_failure_is_500 unit no_papers openai_down settings
              sample_chat_request [] code detail about h' E)
    as (-> & -> & e & before & -> & Hh & [[Hctx _]|He]).
  - discriminate Hctx.
  - exists (Some e), h'. split; [reflexivity|].
    destruct He as (e' & ->). exists e'. reflexivity.
Defined.


(** A summary of an unknown type is asked with a limit of 800 tokens. *)
Lemma summarize_paper_budget_unknown_type :
  exists r h',
    summarize_paper only_groq settings sample_paper "executive" []
    = (Returned {| summary_text := res_content r;
                   summary_kind := "executive";
                   tokens_used := res_tokens r |}, h') /\
    Forall (carries three_tenths 800) h'.
Proof.
  destruct (summarize_paper_budget only_groq settings sample_paper "executive" [])
    as (messages & budget & _ & [(H & _)|[(H & _)|(_ & _ & ->)]]
        & o & added & E & Hcarry & _ & Hsum & _);
    try discriminate H.
  destruct o as [r|e].
  - exists r, added. split; [exact Hsum|exact Hcarry].
  - vm_compute in Hsum. discriminate Hsum.
Defined.


